(** * Mailing-App: the subscription / fan-out pipeline of [mailinglist]

    A shallow embedding of [mailinglist/models.py], [mailinglist/tasks.py]
    and the confirmation view of [mailinglist/views.py].

    Python objects that live in the database are rows of finite maps keyed
    by their primary key; the Celery broker is a list of pending task
    messages; Python exceptions are the error branch of a state-and-error
    monad whose state survives a raise (there is no transaction around a
    request, so whatever was written before an exception stays written). *)

From stdpp Require Import gmap strings list fin_maps.

Open Scope string_scope.
Open Scope list_scope.
Open Scope nat_scope.

(** ** Data model *)

(** [models.UUIDField(primary_key=True, default=uuid.uuid4)]: a 128-bit
    identifier, held as a natural number. *)
Abbreviation UUID := N (only parsing).

(** [models.DateTimeField]: seconds on the wall clock. *)
Abbreviation DateTime := Z (only parsing).

Module MailingList.
Record t := mk { name : string; owner : N }.
End MailingList.

Module Subscriber.
Record t := mk { email : string; confirmed : bool; mailing_list : UUID }.
Definition set_confirmed (b : bool) (s : t) : t :=
  mk (email s) b (mailing_list s).
End Subscriber.

Module Message.
Record t := mk {
  mailing_list : UUID;
  subject : string;
  body : string;
  started : option DateTime;
  finished : option DateTime }.
End Message.

Module SubscriberMessage.
Record t := mk {
  message : UUID;
  subscriber : UUID;
  created : DateTime;
  sent : option DateTime;
  last_attempt : option DateTime }.
End SubscriberMessage.

(** A Python model instance: its primary key, Django's [_state.adding]
    flag (true until the instance has been written or loaded) and the
    values of its columns. *)
Record Instance (A : Type) := mkInstance {
  pk : UUID;
  _state_adding : bool;
  fields : A }.
Arguments mkInstance {A} _ _ _.
Arguments pk {A} _.
Arguments _state_adding {A} _.
Arguments fields {A} _.

(** What calling the model class builds: a fresh, unsaved instance. *)
Definition new_instance {A} (id : UUID) (x : A) : Instance A :=
  mkInstance id true x.

(** What a queryset yields: an instance loaded from its row. *)
Definition loaded_instance {A} (id : UUID) (x : A) : Instance A :=
  mkInstance id false x.

(** The three [@shared_task] functions of [tasks.py]; [f.delay(x)] puts
    the message [f x] on the broker. *)
Inductive Task :=
| send_confirmation_email_to_subscriber_task (subscriber_id : UUID)
| build_subscriber_messages_for_message_task (message_id : UUID)
| send_subscriber_message_task (subscriber_message_id : UUID).

Global Instance Task_eq_dec : EqDecision Task.
Proof. solve_decision. Defined.

(** Calls that leave the code under study for [mailinglist/emails.py],
    with their argument.  The module is not among the sources: the model
    records that it was called. *)
Inductive EmailCall :=
| emails_send_confirmation_email (subscriber : Instance Subscriber.t)
| emails_send_subscriber_message (subscriber_message : Instance SubscriberMessage.t).

Inductive exn :=
| AttributeError
| DoesNotExist
| IntegrityError
| ValueError
| DatabaseError
| Http404.

Global Instance exn_eq_dec : EqDecision exn.
Proof. solve_decision. Defined.

(** The world a request or a worker runs in: the four tables, the task
    messages on the Celery broker (oldest first), the calls made into
    [emails.py], the clock, and the values that successive calls of
    [uuid.uuid4] return together with the number of calls made. *)
Record World := mkWorld {
  mailinglist_tbl : gmap UUID MailingList.t;
  subscriber_tbl : gmap UUID Subscriber.t;
  message_tbl : gmap UUID Message.t;
  subscribermessage_tbl : gmap UUID SubscriberMessage.t;
  broker : list Task;
  email_calls : list EmailCall;
  now : DateTime;
  uuid4_source : nat -> UUID;
  uuid4_drawn : nat }.

Definition set_mailinglist_tbl (t : gmap UUID MailingList.t) (w : World) : World :=
  mkWorld t (subscriber_tbl w) (message_tbl w) (subscribermessage_tbl w)
          (broker w) (email_calls w) (now w) (uuid4_source w) (uuid4_drawn w).
Definition set_subscriber_tbl (t : gmap UUID Subscriber.t) (w : World) : World :=
  mkWorld (mailinglist_tbl w) t (message_tbl w) (subscribermessage_tbl w)
          (broker w) (email_calls w) (now w) (uuid4_source w) (uuid4_drawn w).
Definition set_message_tbl (t : gmap UUID Message.t) (w : World) : World :=
  mkWorld (mailinglist_tbl w) (subscriber_tbl w) t (subscribermessage_tbl w)
          (broker w) (email_calls w) (now w) (uuid4_source w) (uuid4_drawn w).
Definition set_subscribermessage_tbl (t : gmap UUID SubscriberMessage.t) (w : World) : World :=
  mkWorld (mailinglist_tbl w) (subscriber_tbl w) (message_tbl w) t
          (broker w) (email_calls w) (now w) (uuid4_source w) (uuid4_drawn w).
Definition set_broker (q : list Task) (w : World) : World :=
  mkWorld (mailinglist_tbl w) (subscriber_tbl w) (message_tbl w)
          (subscribermessage_tbl w) q (email_calls w) (now w)
          (uuid4_source w) (uuid4_drawn w).
Definition set_email_calls (l : list EmailCall) (w : World) : World :=
  mkWorld (mailinglist_tbl w) (subscriber_tbl w) (message_tbl w)
          (subscribermessage_tbl w) (broker w) l (now w)
          (uuid4_source w) (uuid4_drawn w).
Definition set_now (t : DateTime) (w : World) : World :=
  mkWorld (mailinglist_tbl w) (subscriber_tbl w) (message_tbl w)
          (subscribermessage_tbl w) (broker w) (email_calls w) t
          (uuid4_source w) (uuid4_drawn w).
Definition set_uuid4_drawn (n : nat) (w : World) : World :=
  mkWorld (mailinglist_tbl w) (subscriber_tbl w) (message_tbl w)
          (subscribermessage_tbl w) (broker w) (email_calls w) (now w)
          (uuid4_source w) n.

(** ** Exceptions and state *)

Inductive result (A : Type) :=
| Ok (a : A)
| Raise (e : exn).
Arguments Ok {A} _.
Arguments Raise {A} _.

Definition M (A : Type) : Type := World -> result A * World.

Definition ret {A} (a : A) : M A := fun w => (Ok a, w).
Definition raise {A} (e : exn) : M A := fun w => (Raise e, w).
Definition bind {A B} (c : M A) (k : A -> M B) : M B :=
  fun w => match c w with
           | (Ok a, w') => k a w'
           | (Raise e, w') => (Raise e, w')
           end.

Notation "'let*' x := c 'in' k" := (bind c (fun x => k))
  (at level 10, x name, c at level 100, k at level 200).
Notation "c ;; k" := (bind c (fun _ => k))
  (at level 100, k at level 200, right associativity).

Definition gets {A} (f : World -> A) : M A := fun w => (Ok (f w), w).
Definition modify (f : World -> World) : M unit := fun w => (Ok tt, f w).

(** A list comprehension [[f x for x in xs]] with an effectful [f]. *)
Fixpoint for_each {A B} (f : A -> M B) (xs : list A) : M (list B) :=
  match xs with
  | [] => ret []
  | x :: xs' => let* y := f x in let* ys := for_each f xs' in ret (y :: ys)
  end.

Definition is_ok {A} (r : result A) : bool :=
  match r with Ok _ => true | Raise _ => false end.

(** [uuid.uuid4()] *)
Definition uuid4 : M UUID :=
  fun w => (Ok (uuid4_source w (uuid4_drawn w)),
            set_uuid4_drawn (S (uuid4_drawn w)) w).

(** [task.delay(arg)], with a broker that accepts the message. *)
Definition delay (t : Task) : M unit :=
  modify (fun w => set_broker (broker w ++ [t]) w).

Definition call_emails (c : EmailCall) : M unit :=
  modify (fun w => set_email_calls (email_calls w ++ [c]) w).

(** ** The database layer ([django.db.models])

    What the source relies on from its base classes: [Model.save],
    [Model.delete] with [on_delete=CASCADE], [Manager.get] and
    [Manager.create]. *)

(** A table as the world holds it, with the checks the database makes on
    a row written under key [id] (foreign keys point at existing rows,
    [unique_together] holds against every other row) and the columns
    Django fills in on insert ([auto_now_add]). *)
Record Table (A : Type) := mkTable {
  rows : World -> gmap UUID A;
  set_rows : gmap UUID A -> World -> World;
  constraints : UUID -> A -> World -> bool;
  pre_insert : World -> A -> A }.
Arguments mkTable {A} _ _ _ _.
Arguments rows {A} _ _.
Arguments set_rows {A} _ _ _.
Arguments constraints {A} _ _ _ _.
Arguments pre_insert {A} _ _ _.

Definition fk_exists {A} (tbl : gmap UUID A) (id : UUID) : bool :=
  bool_decide (is_Some (tbl !! id)).

(** [unique_together = ['email', 'mailing_list']] seen from the row
    being written under key [id]. *)
Definition email_mailing_list_free (id : UUID) (s : Subscriber.t)
    (tbl : gmap UUID Subscriber.t) : bool :=
  bool_decide (map_Forall (fun k r =>
      k = id \/ ~ (Subscriber.email r = Subscriber.email s /\
                   Subscriber.mailing_list r = Subscriber.mailing_list s)) tbl).

(** [MailingList.owner] points into the user table of the auth
    application, which is outside the model. *)
Definition MailingList_table : Table MailingList.t :=
  mkTable mailinglist_tbl set_mailinglist_tbl
          (fun _ _ _ => true)
          (fun _ x => x).

Definition Subscriber_table : Table Subscriber.t :=
  mkTable subscriber_tbl set_subscriber_tbl
          (fun id s w =>
             fk_exists (mailinglist_tbl w) (Subscriber.mailing_list s)
             && email_mailing_list_free id s (subscriber_tbl w))
          (fun _ x => x).

Definition Message_table : Table Message.t :=
  mkTable message_tbl set_message_tbl
          (fun _ m w => fk_exists (mailinglist_tbl w) (Message.mailing_list m))
          (fun _ x => x).

Definition SubscriberMessage_table : Table SubscriberMessage.t :=
  mkTable subscribermessage_tbl set_subscribermessage_tbl
          (fun _ sm w =>
             fk_exists (message_tbl w) (SubscriberMessage.message sm)
             && fk_exists (subscriber_tbl w) (SubscriberMessage.subscriber sm))
          (fun w sm =>
             SubscriberMessage.mk (SubscriberMessage.message sm)
               (SubscriberMessage.subscriber sm) (now w)
               (SubscriberMessage.sent sm) (SubscriberMessage.last_attempt sm)).

(** Writing one row; a violated constraint is an [IntegrityError] and
    writes nothing. *)
Definition write_row {A} (T : Table A) (id : UUID) (x : A) : M (Instance A) :=
  fun w =>
    if constraints T id x w
    then (Ok (mkInstance id false x), set_rows T (<[id := x]> (rows T w)) w)
    else (Raise IntegrityError, w).

Definition sql_insert {A} (T : Table A) (id : UUID) (x : A) : M (Instance A) :=
  fun w =>
    match rows T w !! id with
    | Some _ => (Raise IntegrityError, w)
    | None => write_row T id (pre_insert T w x) w
    end.

(** [Model.save].  Forcing both an insert and an update is a [ValueError].
    A forced insert, and the save of an instance that is being added (its
    key has a default, so Django skips the UPDATE), is an INSERT.  Any
    other save is an UPDATE of the row with the instance's key, and an
    INSERT when no row has it, unless the update was forced.  The
    instance comes back with [_state.adding] false.  The sources leave
    [using] and [update_fields] at their defaults. *)
Definition Model_save {A} (T : Table A) (self : Instance A)
    (force_insert force_update : bool) : M (Instance A) :=
  if force_insert && force_update then raise ValueError
  else if force_insert || (_state_adding self && negb force_update)
  then sql_insert T (pk self) (fields self)
  else
    let* existing := gets (fun w => rows T w !! pk self) in
    match existing with
    | Some _ => write_row T (pk self) (fields self)
    | None =>
        if force_update then raise DatabaseError
        else sql_insert T (pk self) (fields self)
    end.

(** [Model.objects.get(id=...)] *)
Definition objects_get {A} (T : Table A) (id : UUID) : M (Instance A) :=
  fun w =>
    match rows T w !! id with
    | Some x => (Ok (loaded_instance id x), w)
    | None => (Raise DoesNotExist, w)
    end.

(** [SingleObjectMixin.get_object]: the same lookup, as a 404. *)
Definition get_object {A} (T : Table A) (id : UUID) : M (Instance A) :=
  fun w =>
    match rows T w !! id with
    | Some x => (Ok (loaded_instance id x), w)
    | None => (Raise Http404, w)
    end.

(** [Model.delete]: the collector gathers the row and, through every
    foreign key declared [on_delete=models.CASCADE], the rows that point
    at a gathered row; all of them are then deleted. *)
Definition SubscriberMessage_delete (id : UUID) : M unit :=
  modify (fun w =>
    set_subscribermessage_tbl (delete id (subscribermessage_tbl w)) w).

Definition Subscriber_delete (id : UUID) : M unit :=
  modify (fun w =>
    set_subscriber_tbl (delete id (subscriber_tbl w))
      (set_subscribermessage_tbl
         (filter (fun kr => SubscriberMessage.subscriber kr.2 <> id)
                 (subscribermessage_tbl w)) w)).

Definition Message_delete (id : UUID) : M unit :=
  modify (fun w =>
    set_message_tbl (delete id (message_tbl w))
      (set_subscribermessage_tbl
         (filter (fun kr => SubscriberMessage.message kr.2 <> id)
                 (subscribermessage_tbl w)) w)).

Definition MailingList_delete (id : UUID) : M unit :=
  modify (fun w =>
    let subscribers :=
      filter (fun kr => Subscriber.mailing_list kr.2 = id) (subscriber_tbl w) in
    let messages :=
      filter (fun kr => Message.mailing_list kr.2 = id) (message_tbl w) in
    set_mailinglist_tbl (delete id (mailinglist_tbl w))
      (set_subscriber_tbl
         (filter (fun kr => Subscriber.mailing_list kr.2 <> id) (subscriber_tbl w))
         (set_message_tbl
            (filter (fun kr => Message.mailing_list kr.2 <> id) (message_tbl w))
            (set_subscribermessage_tbl
               (filter (fun kr =>
                    subscribers !! SubscriberMessage.subscriber kr.2 = None /\
                    messages !! SubscriberMessage.message kr.2 = None)
                  (subscribermessage_tbl w)) w)))).

(** ** [mailinglist/models.py] *)

(** [SubscriberManager.confirmed_subscribers_for_mailing_list] *)
Definition confirmed_subscribers_for_mailing_list (mailing_list : UUID)
    : M (list (Instance Subscriber.t)) :=
  gets (fun w =>
    let qs := subscriber_tbl w in
    let qs := filter (fun kr => Subscriber.confirmed kr.2 = true) qs in
    let qs := filter (fun kr => Subscriber.mailing_list kr.2 = mailing_list) qs in
    (fun kr => loaded_instance kr.1 kr.2) <$> map_to_list qs).

(** Attribute lookup on [Subscriber.objects], for a name that is to be
    called with a mailing list.  The class body of [SubscriberManager]
    defines one method; [models.Manager] contributes none of the names
    looked up in this module, and [send_confirmation_email] is a method
    of the [Subscriber] model, not of its manager. *)
Definition SubscriberManager_getattr (name : string)
    : M (UUID -> M (list (Instance Subscriber.t))) :=
  if decide (name = "confirmed_subscribers_for_mailing_list")
  then ret confirmed_subscribers_for_mailing_list
  else raise AttributeError.

(** [Subscriber.send_confirmation_email] *)
Definition send_confirmation_email (self : Instance Subscriber.t) : M unit :=
  delay (send_confirmation_email_to_subscriber_task (pk self)).

(** [Subscriber.save] *)
Definition Subscriber_save (self : Instance Subscriber.t)
    (force_insert force_update : bool) : M (Instance Subscriber.t) :=
  let is_new := _state_adding self || force_insert in
  let* self := Model_save Subscriber_table self force_insert force_update in
  if is_new && negb (Subscriber.confirmed (fields self))
  then send_confirmation_email self ;; ret self
  else ret self.

(** [Message.save] *)
Definition Message_save (self : Instance Message.t)
    (force_insert force_update : bool) : M (Instance Message.t) :=
  let is_new := _state_adding self || force_insert in
  let* self := Model_save Message_table self force_insert force_update in
  if is_new
  then delay (build_subscriber_messages_for_message_task (pk self)) ;; ret self
  else ret self.

(** [SubscriberMessage.send] *)
Definition SubscriberMessage_send (self : Instance SubscriberMessage.t) : M unit :=
  delay (send_confirmation_email_to_subscriber_task (pk self)).

(** [SubscriberMessage.save] *)
Definition SubscriberMessage_save (self : Instance SubscriberMessage.t)
    (force_insert force_update : bool) : M (Instance SubscriberMessage.t) :=
  let is_new := _state_adding self || force_insert in
  let* self := Model_save SubscriberMessage_table self force_insert force_update in
  if is_new
  then SubscriberMessage_send self ;; ret self
  else ret self.

(** [Manager.create] builds the instance (its [id] defaults to a
    [uuid4] draw) and saves it with [force_insert=True].  The [created]
    column of a [SubscriberMessage] is [auto_now_add]: whatever the
    instance holds is replaced by the clock when the row is inserted. *)
Definition Subscriber_objects_create (email : string) (confirmed : bool)
    (mailing_list : UUID) : M (Instance Subscriber.t) :=
  let* id := uuid4 in
  Subscriber_save
    (new_instance id (Subscriber.mk email confirmed mailing_list)) true false.

Definition Message_objects_create (mailing_list : UUID) (subject body : string)
    : M (Instance Message.t) :=
  let* id := uuid4 in
  Message_save
    (new_instance id (Message.mk mailing_list subject body None None)) true false.

Definition SubscriberMessage_objects_create (message subscriber : UUID)
    : M (Instance SubscriberMessage.t) :=
  let* id := uuid4 in
  SubscriberMessage_save
    (new_instance id (SubscriberMessage.mk message subscriber 0%Z None None))
    true false.

(** The list comprehension of [create_from_message]. *)
Definition create_for_each (message : Instance Message.t)
    (confirmed_subs : list (Instance Subscriber.t))
    : M (list (Instance SubscriberMessage.t)) :=
  for_each (fun subscriber =>
              SubscriberMessage_objects_create (pk message) (pk subscriber))
           confirmed_subs.

(** [SubscriberMessageManager.create_from_message].  Python evaluates the
    callee, [Subscriber.objects.send_confirmation_email], before the
    argument. *)
Definition create_from_message (message : Instance Message.t)
    : M (list (Instance SubscriberMessage.t)) :=
  let* send_confirmation_email :=
    SubscriberManager_getattr "send_confirmation_email" in
  let* confirmed_subs :=
    send_confirmation_email (Message.mailing_list (fields message)) in
  create_for_each message confirmed_subs.

(** ** [mailinglist/tasks.py] *)

Definition send_confirmation_email_to_subscriber (subscriber_id : UUID) : M unit :=
  let* subscriber := objects_get Subscriber_table subscriber_id in
  call_emails (emails_send_confirmation_email subscriber).

Definition build_subscriber_messages_for_message (message_id : UUID) : M unit :=
  let* message := objects_get Message_table message_id in
  create_from_message message ;; ret tt.

Definition send_subscriber_message (subscriber_message_id : UUID) : M unit :=
  let* subscriber_message :=
    objects_get SubscriberMessage_table subscriber_message_id in
  call_emails (emails_send_subscriber_message subscriber_message).

(** A Celery worker executing one task message. *)
Definition run_task (t : Task) : M unit :=
  match t with
  | send_confirmation_email_to_subscriber_task id =>
      send_confirmation_email_to_subscriber id
  | build_subscriber_messages_for_message_task id =>
      build_subscriber_messages_for_message id
  | send_subscriber_message_task id =>
      send_subscriber_message id
  end.

(** ** [mailinglist/views.py] *)

(** [ConfirmSubscriptionView.get_object] *)
Definition ConfirmSubscriptionView_get_object (id : UUID)
    : M (Instance Subscriber.t) :=
  let* subscriber := get_object Subscriber_table id in
  let subscriber :=
    mkInstance (pk subscriber) (_state_adding subscriber)
               (Subscriber.set_confirmed true (fields subscriber)) in
  Subscriber_save subscriber false false.

(** [UnsubscribeView], a [DeleteView] with no other base: it loads the
    object (404 when it is absent) and deletes it. *)
Definition UnsubscribeView_delete (id : UUID) : M unit :=
  let* obj := get_object Subscriber_table id in
  Subscriber_delete (pk obj).

(** ** Operations on the world

    What a client of the models, a request or a worker can do, one step
    at a time: every write to the database goes through a [save], a
    [create] or a [delete] of the models.  A worker may run any task
    message, any number of times.  A step that raises keeps what it had
    written. *)
Inductive Op :=
| MailingList_save_op (self : Instance MailingList.t) (force_insert force_update : bool)
| MailingList_delete_op (id : UUID)
| Subscriber_save_op (self : Instance Subscriber.t) (force_insert force_update : bool)
| Subscriber_objects_create_op (email : string) (confirmed : bool) (mailing_list : UUID)
| ConfirmSubscriptionView_op (id : UUID)
| Subscriber_delete_op (id : UUID)
| Message_save_op (self : Instance Message.t) (force_insert force_update : bool)
| Message_objects_create_op (mailing_list : UUID) (subject body : string)
| Message_delete_op (id : UUID)
| SubscriberMessage_save_op (self : Instance SubscriberMessage.t)
    (force_insert force_update : bool)
| SubscriberMessage_objects_create_op (message subscriber : UUID)
| SubscriberMessage_delete_op (id : UUID)
| run_task_op (t : Task)
| clock_op (t : DateTime).

Definition run_op (o : Op) (w : World) : World :=
  match o with
  | MailingList_save_op self fi fu => (Model_save MailingList_table self fi fu w).2
  | MailingList_delete_op id => (MailingList_delete id w).2
  | Subscriber_save_op self fi fu => (Subscriber_save self fi fu w).2
  | Subscriber_objects_create_op e c ml => (Subscriber_objects_create e c ml w).2
  | ConfirmSubscriptionView_op id => (ConfirmSubscriptionView_get_object id w).2
  | Subscriber_delete_op id => (Subscriber_delete id w).2
  | Message_save_op self fi fu => (Message_save self fi fu w).2
  | Message_objects_create_op ml s b => (Message_objects_create ml s b w).2
  | Message_delete_op id => (Message_delete id w).2
  | SubscriberMessage_save_op self fi fu => (SubscriberMessage_save self fi fu w).2
  | SubscriberMessage_objects_create_op m s => (SubscriberMessage_objects_create m s w).2
  | SubscriberMessage_delete_op id => (SubscriberMessage_delete id w).2
  | run_task_op t => (run_task t w).2
  | clock_op t => set_now t w
  end.

Definition run_ops (os : list Op) (w : World) : World :=
  foldl (fun w o => run_op o w) w os.

(** The world before anything happened. *)
Definition World_empty (t0 : DateTime) (source : nat -> UUID) : World :=
  mkWorld ∅ ∅ ∅ ∅ [] [] t0 source 0.

(** ** Integrity of the store *)

(** Every foreign key points at a row, and no two subscribers share
    [(email, mailing_list)]. *)
Record consistent (w : World) : Prop := mkConsistent {
  subscriber_fk :
    map_Forall (fun _ s => is_Some (mailinglist_tbl w !! Subscriber.mailing_list s))
               (subscriber_tbl w);
  message_fk :
    map_Forall (fun _ m => is_Some (mailinglist_tbl w !! Message.mailing_list m))
               (message_tbl w);
  subscribermessage_message_fk :
    map_Forall (fun _ sm => is_Some (message_tbl w !! SubscriberMessage.message sm))
               (subscribermessage_tbl w);
  subscribermessage_subscriber_fk :
    map_Forall (fun _ sm => is_Some (subscriber_tbl w !! SubscriberMessage.subscriber sm))
               (subscribermessage_tbl w);
  subscriber_unique_together :
    map_Forall (fun k s => email_mailing_list_free k s (subscriber_tbl w) = true)
               (subscriber_tbl w) }.

(** The rows of one [(message, subscriber)] pair. *)
Definition subscribermessages_of (message subscriber : UUID) (w : World)
    : gmap UUID SubscriberMessage.t :=
  filter (fun kr => SubscriberMessage.message kr.2 = message /\
                    SubscriberMessage.subscriber kr.2 = subscriber)
         (subscribermessage_tbl w).

(** The rows of one [(email, mailing_list)] pair. *)
Definition subscribers_of (email : string) (mailing_list : UUID) (w : World)
    : gmap UUID Subscriber.t :=
  filter (fun kr => Subscriber.email kr.2 = email /\
                    Subscriber.mailing_list kr.2 = mailing_list)
         (subscriber_tbl w).

(** At most one row per [(message, subscriber)]. *)
Definition one_SubscriberMessage_per_pair (w : World) : Prop :=
  forall k1 k2 r1 r2,
    subscribermessage_tbl w !! k1 = Some r1 ->
    subscribermessage_tbl w !! k2 = Some r2 ->
    SubscriberMessage.message r1 = SubscriberMessage.message r2 ->
    SubscriberMessage.subscriber r1 = SubscriberMessage.subscriber r2 ->
    k1 = k2.

(** A table whose accepted writes keep the store consistent. *)
Definition sound_table {A} (T : Table A) : Prop :=
  forall w id x,
    consistent w -> constraints T id x w = true ->
    consistent (set_rows T (<[id := x]> (rows T w)) w).

Global Instance consistent_dec w : Decision (consistent w).
Proof.
  destruct (decide
    (map_Forall (fun _ s => is_Some (mailinglist_tbl w !! Subscriber.mailing_list s))
                (subscriber_tbl w) /\
     map_Forall (fun _ m => is_Some (mailinglist_tbl w !! Message.mailing_list m))
                (message_tbl w) /\
     map_Forall (fun _ sm => is_Some (message_tbl w !! SubscriberMessage.message sm))
                (subscribermessage_tbl w) /\
     map_Forall (fun _ sm => is_Some (subscriber_tbl w !! SubscriberMessage.subscriber sm))
                (subscribermessage_tbl w) /\
     map_Forall (fun k s => email_mailing_list_free k s (subscriber_tbl w) = true)
                (subscriber_tbl w))) as [H|H].
  - left. destruct H as (? & ? & ? & ? & ?). by constructor.
  - right. intros []. apply H. by split_and!.
Defined.

(** ** A running example

    One list with a confirmed and an unconfirmed subscriber and one
    message, built through the models from the empty world. *)
Module Scenario.
Definition source (n : nat) : UUID := (100 + N.of_nat n)%N.

Definition list_id : UUID := 1%N.

Definition setup : list Op :=
  [ MailingList_save_op (new_instance list_id (MailingList.mk "news" 7%N)) false false;
    Subscriber_objects_create_op "ann@example.org" true list_id;
    Subscriber_objects_create_op "bob@example.org" false list_id;
    Message_objects_create_op list_id "hello" "first issue" ].

Definition w0 : World := Eval vm_compute in run_ops setup (World_empty 0 source).

Definition ann : UUID := 100%N.
Definition bob : UUID := 101%N.
Definition hello : UUID := 102%N.

(** A visitor about to subscribe, and one the owner adds as already
    confirmed. *)
Definition carl : Instance Subscriber.t :=
  new_instance 5%N (Subscriber.mk "carl@example.org" false list_id).
Definition dora : Instance Subscriber.t :=
  new_instance 6%N (Subscriber.mk "dora@example.org" true list_id).
End Scenario.

(** The draws [n], [n+1], ... of [uuid4] that [count] creations use are
    new keys and differ from one another. *)
Definition fresh_draws (count : nat) (w : World) : Prop :=
  (forall i, i < count ->
     subscribermessage_tbl w !! uuid4_source w (uuid4_drawn w + i) = None) /\
  (forall i j, i < j < count ->
     uuid4_source w (uuid4_drawn w + i) <> uuid4_source w (uuid4_drawn w + j)).


(** The task that hands a record to the mail sender. *)
Definition is_delivery_task (t : Task) : bool :=
  match t with
  | send_subscriber_message_task _ => true
  | _ => false
  end.


(** ** Ownership: [MailingList.user_can_use_mailing_list] and
    [mailinglist/permissions.py] *)

(** [MailingList.user_can_use_mailing_list]: [user == self.owner], users
    being compared by their key. *)
Definition user_can_use_mailing_list (self : Instance MailingList.t) (user : N) : bool :=
  bool_decide (user = MailingList.owner (fields self)).

(** What [has_object_permission] may be asked about: the two classes it
    tests with [isinstance], and anything else. *)
Inductive Obj :=
| Subscriber_obj (s : Instance Subscriber.t)
| MailingList_obj (l : Instance MailingList.t)
| other_obj.

(** [CanUseMailingList.has_object_permission]; [obj.mailing_list] loads
    the related list. *)
Definition has_object_permission (user : N) (obj : Obj) : M bool :=
  match obj with
  | Subscriber_obj s =>
      let* mailing_list :=
        objects_get MailingList_table (Subscriber.mailing_list (fields s)) in
      ret (user_can_use_mailing_list mailing_list user)
  | MailingList_obj l => ret (user_can_use_mailing_list l user)
  | other_obj => ret false
  end.

(** ** More of [mailinglist/views.py] *)

(** [django.shortcuts.get_object_or_404] *)
Definition get_object_or_404 {A} (T : Table A) (id : UUID) : M (Instance A) :=
  fun w =>
    match rows T w !! id with
    | Some x => (Ok (loaded_instance id x), w)
    | None => (Raise Http404, w)
    end.

(** Evaluating a queryset: the rows of a table that pass a filter, as
    loaded instances. *)
Definition evaluate {A} (qs : gmap UUID A) : list (Instance A) :=
  (fun kr => loaded_instance kr.1 kr.2) <$> map_to_list qs.

(** [MailingListListView.get_queryset] *)
Definition MailingListListView_get_queryset (user : N)
    : M (list (Instance MailingList.t)) :=
  gets (fun w =>
    evaluate (filter (fun kr => MailingList.owner kr.2 = user) (mailinglist_tbl w))).

(** [MailingListCreateListView.get_queryset]: [user.mailinglist_set] is
    the reverse side of [MailingList.owner]. *)
Definition MailingListCreateListView_get_queryset (user : N)
    : M (list (Instance MailingList.t)) :=
  gets (fun w =>
    evaluate (filter (fun kr => MailingList.owner kr.2 = user) (mailinglist_tbl w))).

(** [SubscriberListCreateView.get_queryset]: [mailing_list.subscriber_set]
    is the reverse side of [Subscriber.mailing_list]. *)
Definition SubscriberListCreateView_get_queryset (mailing_list_pk : UUID)
    : M (list (Instance Subscriber.t)) :=
  let* mailing_list := get_object_or_404 MailingList_table mailing_list_pk in
  gets (fun w =>
    evaluate (filter (fun kr => Subscriber.mailing_list kr.2 = pk mailing_list)
                     (subscriber_tbl w))).

(** What [reverse] is asked for: a route name and the [pk] it is to
    carry.  The URL configuration is not among the sources. *)
Record Url := reverse {
  view_name : string;
  kwargs_pk : UUID }.

Global Instance Url_eq_dec : EqDecision Url.
Proof. solve_decision. Defined.

(** A view may also raise [PermissionDenied]. *)
Inductive view_result (A : Type) :=
| Returned (a : A)
| Raised (e : exn)
| PermissionDenied.
Arguments Returned {A} _.
Arguments Raised {A} _.
Arguments PermissionDenied {A}.

Definition V (A : Type) : Type := World -> view_result A * World.

Definition lift {A} (c : M A) : V A :=
  fun w => match c w with
           | (Ok a, w') => (Returned a, w')
           | (Raise e, w') => (Raised e, w')
           end.

Definition vret {A} (a : A) : V A := fun w => (Returned a, w).

Definition vbind {A B} (c : V A) (k : A -> V B) : V B :=
  fun w => match c w with
           | (Returned a, w') => k a w'
           | (Raised e, w') => (Raised e, w')
           | (PermissionDenied, w') => (PermissionDenied, w')
           end.

(** [CreateMessageView.get_mailing_list] *)
Definition CreateMessageView_get_mailing_list (user : N) (mailinglist_pk : UUID)
    : V (Instance MailingList.t) :=
  vbind (lift (get_object_or_404 MailingList_table mailinglist_pk))
    (fun mailing_list =>
       if negb (user_can_use_mailing_list mailing_list user)
       then (fun w => (PermissionDenied, w))
       else vret mailing_list).

Definition SAVE_ACTION : string := "save".
Definition PREVIEW_ACTION : string := "preview".

(** What [CreateMessageView.get_context_data] adds to the template
    context, next to the keyword arguments it was called with. *)
Record Context := mkContext {
  ctx_message : Instance Message.t;
  ctx_mailing_list : Instance MailingList.t;
  ctx_SAVE_ACTION : string;
  ctx_PREVIEW_ACTION : string }.

(** [CreateMessageView.get_context_data], called with
    [message=form.instance]. *)
Definition CreateMessageView_get_context_data (user : N) (mailinglist_pk : UUID)
    (message : Instance Message.t) : V Context :=
  vbind (CreateMessageView_get_mailing_list user mailinglist_pk)
    (fun mailing_list =>
       vret (mkContext message mailing_list SAVE_ACTION PREVIEW_ACTION)).

Inductive Response :=
| render_to_response (context : Context)
| HttpResponseRedirect (url : Url).

(** [CreateMessageView.get_success_url], [self.object] being the saved
    message. *)
Definition CreateMessageView_get_success_url (object : Instance Message.t) : Url :=
  reverse "mailinglist:manage_mailinglist" (Message.mailing_list (fields object)).

(** [CreateMessageView.form_valid].  [action] is
    [request.POST.get('action')], [None] when the field is absent; the
    inherited [form_valid] saves [form.instance] with a plain [save()] and
    redirects to the success URL; a Python function that falls off its
    end returns [None]. *)
Definition CreateMessageView_form_valid (user : N) (mailinglist_pk : UUID)
    (action : option string) (form_instance : Instance Message.t)
    : V (option Response) :=
  if decide (action = Some PREVIEW_ACTION) then
    vbind (CreateMessageView_get_context_data user mailinglist_pk form_instance)
      (fun context => vret (Some (render_to_response context)))
  else if decide (action = Some SAVE_ACTION) then
    vbind (lift (Message_save form_instance false false))
      (fun object =>
         vret (Some (HttpResponseRedirect (CreateMessageView_get_success_url object))))
  else vret None.

(** The values a request body carries in the two API views below. *)
Inductive Value :=
| str (s : string)
| int (n : N)
| url (u : Url).

Global Instance Value_eq_dec : EqDecision Value.
Proof. solve_decision. Defined.

(** What [request.data] can be.  The [dict] of a JSON object; the
    [QueryDict] of a form-encoded or multipart body, one list of values
    per key, which is immutable unless the request carried files (the
    view then gets a mutable copy); or another parsed value (a JSON list,
    string, number, ...), of which only the truth value matters here. *)
Inductive Data :=
| dict (d : gmap string Value)
| QueryDict (mutable : bool) (d : gmap string (list Value))
| other (truthy : bool).

(** Python's truth value of [kwargs.get('data', None)]: [None] and the
    empty containers are false. *)
Definition truthy (data : option Data) : bool :=
  match data with
  | None => false
  | Some (dict d) => negb (bool_decide (d = ∅))
  | Some (QueryDict _ d) => negb (bool_decide (d = ∅))
  | Some (other b) => b
  end.

(** [data.update({key: v})].  A [dict] replaces the value of the key; a
    mutable [QueryDict] appends to the key's list; an immutable one
    raises [AttributeError], as does a value that has no [update]. *)
Definition Data_update (key : string) (v : Value) (data : Data) : result Data :=
  match data with
  | dict d => Ok (dict (<[key := v]> d))
  | QueryDict true d => Ok (QueryDict true (<[key := default [] (d !! key) ++ [v]]> d))
  | QueryDict false _ => Raise AttributeError
  | other _ => Raise AttributeError
  end.

(** [data.get(key)], which is how a serializer field reads its value: of
    a [QueryDict], the last value of the key's list. *)
Definition Data_get (key : string) (data : Data) : option Value :=
  match data with
  | dict d => d !! key
  | QueryDict _ d => d !! key ≫= last
  | other _ => None
  end.

(** [MailingListCreateListView.get_serializer], as the [data] keyword it
    hands on to the inherited method ([None] when the keyword is
    absent), or the exception it raises. *)
Definition MailingListCreateListView_get_serializer (user : N)
    (data : option Data) : result (option Data) :=
  if truthy data then
    match data with
    | Some data =>
        match Data_update "owner" (int user) data with
        | Ok data => Ok (Some data)
        | Raise e => Raise e
        end
    | None => Ok None
    end
  else Ok data.

(** [SubscriberListCreateView.get_serializer], likewise. *)
Definition SubscriberListCreateView_get_serializer (mailing_list_pk : UUID)
    (data : option Data) : result (option Data) :=
  if truthy data then
    match data with
    | Some data =>
        match Data_update "mailing_list"
                (url (reverse "mailinglist:api-mailing-list-detail" mailing_list_pk))
                data with
        | Ok data => Ok (Some data)
        | Raise e => Raise e
        end
    | None => Ok None
    end
  else Ok data.

(** * Properties *)

(** ** The database layer: what a save can do *)

Section database.
Context {A : Type} (T : Table A).

Lemma write_row_spec id x w :
  write_row T id x w =
    if constraints T id x w
    then (Ok (mkInstance id false x), set_rows T (<[id := x]> (rows T w)) w)
    else (Raise IntegrityError, w).
Proof. reflexivity. Qed.

(** A save that raises has written nothing. *)
Lemma Model_save_Raise self fi fu w e w' :
  Model_save T self fi fu w = (Raise e, w') -> w' = w.
Proof.
  unfold Model_save, sql_insert, write_row, bind, gets, raise.
  repeat (case_match; simplify_eq/=); congruence.
Qed.

(** A save that returns has written exactly one row, under the key of
    the instance, after the database accepted it. *)
Lemma Model_save_Ok self fi fu w r w' :
  Model_save T self fi fu w = (Ok r, w') ->
  exists x,
    r = mkInstance (pk self) false x /\
    w' = set_rows T (<[pk self := x]> (rows T w)) w /\
    constraints T (pk self) x w = true /\
    ((rows T w !! pk self = None /\ x = pre_insert T w (fields self) /\
      fu = false)
     \/ (is_Some (rows T w !! pk self) /\ x = fields self /\ fi = false)).
Proof.
  unfold Model_save, sql_insert, write_row, bind, gets, raise.
  intros H.
  repeat (case_match; simplify_eq/=);
    eexists; (split; [reflexivity|]); (split; [reflexivity|]);
    (split; [assumption|]);
    first [ left; repeat split; try assumption; try reflexivity;
            by destruct fi, fu, (_state_adding self)
          | right; repeat split; eauto; by destruct fi, fu, (_state_adding self) ].
Qed.

(** An instance that is being added is never written over a row. *)
Lemma Model_save_new_Ok self fi fu w r w' :
  Model_save T self fi fu w = (Ok r, w') ->
  fi || (_state_adding self && negb fu) = true ->
  rows T w !! pk self = None /\
  r = mkInstance (pk self) false (pre_insert T w (fields self)) /\
  w' = set_rows T (<[pk self := pre_insert T w (fields self)]> (rows T w)) w /\
  constraints T (pk self) (pre_insert T w (fields self)) w = true.
Proof.
  unfold Model_save, sql_insert, write_row, bind, gets, raise.
  intros H Hnew. rewrite Hnew in H.
  repeat (case_match; simplify_eq/=); done.
Qed.
End database.

(** ** The overridden [save] methods *)

Lemma Subscriber_save_unfold self fi fu w :
  Subscriber_save self fi fu w =
    match Model_save Subscriber_table self fi fu w with
    | (Ok r, w1) =>
        if (_state_adding self || fi) && negb (Subscriber.confirmed (fields r))
        then (Ok r, set_broker
                      (broker w1 ++ [send_confirmation_email_to_subscriber_task (pk r)]) w1)
        else (Ok r, w1)
    | (Raise e, w1) => (Raise e, w1)
    end.
Proof.
  unfold Subscriber_save, bind.
  destruct (Model_save _ _ _ _ _) as [[r|e] w1]; [|done].
  by destruct (_ && _).
Qed.

Lemma Message_save_unfold self fi fu w :
  Message_save self fi fu w =
    match Model_save Message_table self fi fu w with
    | (Ok r, w1) =>
        if _state_adding self || fi
        then (Ok r, set_broker
                      (broker w1 ++ [build_subscriber_messages_for_message_task (pk r)]) w1)
        else (Ok r, w1)
    | (Raise e, w1) => (Raise e, w1)
    end.
Proof.
  unfold Message_save, bind.
  destruct (Model_save _ _ _ _ _) as [[r|e] w1]; [|done].
  by destruct (_ || _).
Qed.

Lemma SubscriberMessage_save_unfold self fi fu w :
  SubscriberMessage_save self fi fu w =
    match Model_save SubscriberMessage_table self fi fu w with
    | (Ok r, w1) =>
        if _state_adding self || fi
        then (Ok r, set_broker
                      (broker w1 ++ [send_confirmation_email_to_subscriber_task (pk r)]) w1)
        else (Ok r, w1)
    | (Raise e, w1) => (Raise e, w1)
    end.
Proof.
  unfold SubscriberMessage_save, bind.
  destruct (Model_save _ _ _ _ _) as [[r|e] w1]; [|done].
  by destruct (_ || _).
Qed.


(** A save of a subscriber that returns: the row written, and the one
    task message it may have queued. *)
Lemma Subscriber_save_Ok self fi fu w r w' :
  Subscriber_save self fi fu w = (Ok r, w') ->
  r = mkInstance (pk self) false (fields self) /\
  subscriber_tbl w' = <[pk self := fields self]> (subscriber_tbl w) /\
  mailinglist_tbl w' = mailinglist_tbl w /\
  message_tbl w' = message_tbl w /\
  subscribermessage_tbl w' = subscribermessage_tbl w /\
  email_calls w' = email_calls w /\
  broker w' =
    broker w ++
    (if (_state_adding self || fi) && negb (Subscriber.confirmed (fields self))
     then [send_confirmation_email_to_subscriber_task (pk self)] else []) /\
  Subscriber_table.(constraints) (pk self) (fields self) w = true /\
  (fi || (_state_adding self && negb fu) = true -> subscriber_tbl w !! pk self = None).
Proof.
  rewrite Subscriber_save_unfold.
  destruct (Model_save _ _ _ _ _) as [[r1|e'] w1] eqn:E; [|done].
  pose proof (Model_save_Ok _ _ _ _ _ _ _ E) as (x & -> & -> & Hc & Hx).
  assert (x = fields self) as -> by (destruct Hx as [(_ & -> & _)|(_ & -> & _)]; done).
  intros H.
  assert (Hins : fi || (_state_adding self && negb fu) = true ->
                 subscriber_tbl w !! pk self = None).
  { intros Hn. by destruct (Model_save_new_Ok _ _ _ _ _ _ _ E Hn) as (? & _). }
  destruct (_ && _); simplify_eq/=; rewrite ?app_nil_r; by repeat split.
Qed.

Lemma fk_exists_true {A} (tbl : gmap UUID A) id :
  fk_exists tbl id = true <-> is_Some (tbl !! id).
Proof. unfold fk_exists. by rewrite bool_decide_eq_true. Qed.

Lemma email_mailing_list_free_true id s tbl :
  email_mailing_list_free id s tbl = true <->
  forall k r, tbl !! k = Some r ->
    Subscriber.email r = Subscriber.email s ->
    Subscriber.mailing_list r = Subscriber.mailing_list s -> k = id.
Proof.
  unfold email_mailing_list_free. rewrite bool_decide_eq_true. unfold map_Forall.
  split; intros H k r Hk.
  - intros He Hm. destruct (H k r Hk) as [?|Hn]; [done|]. by destruct Hn.
  - destruct (decide (k = id)) as [?|Hne]; [by left|right].
    intros [He Hm]. by apply Hne, (H k r).
Qed.

Lemma Scenario_w0_consistent : consistent Scenario.w0.
Proof. apply (bool_decide_unpack _). vm_compute. exact I. Qed.

(** ** Subscriber creation and confirmation *)

(** C3, as amended.  A save that creates a subscriber (the instance is
    being added, or the insert is forced) and returns has queued exactly
    one confirmation task carrying the subscriber's id when the
    subscriber is unconfirmed, and nothing when it is created confirmed;
    nothing else in the world changes but the subscriber's row. *)
Theorem Subscriber_creation_enqueues_unless_confirmed self fi fu w r w' :
  Subscriber_save self fi fu w = (Ok r, w') ->
  _state_adding self || fi = true ->
  pk r = pk self /\
  subscriber_tbl w' !! pk self = Some (fields self) /\
  (fu = false -> subscriber_tbl w !! pk self = None) /\
  broker w' =
    broker w ++
    (if Subscriber.confirmed (fields self) then []
     else [send_confirmation_email_to_subscriber_task (pk self)]).
Proof.
  intros H Hnew.
  apply Subscriber_save_Ok in H as (-> & Ht & _ & _ & _ & _ & Hb & _ & Hins).
  rewrite Hnew in Hb. split; [done|]. split.
  - rewrite Ht. apply lookup_insert_eq.
  - split.
    + intros ->. apply Hins. by destruct fi, (_state_adding self).
    + rewrite Hb. by destruct (Subscriber.confirmed _).
Qed.

Lemma Subscriber_creation_enqueues_unless_confirmed_witness :
  broker (Subscriber_save Scenario.carl false false Scenario.w0).2 =
    broker Scenario.w0 ++ [send_confirmation_email_to_subscriber_task (pk Scenario.carl)].
Proof.
  refine (proj2 (proj2 (proj2
    (Subscriber_creation_enqueues_unless_confirmed Scenario.carl false false
       Scenario.w0 (mkInstance (pk Scenario.carl) false (fields Scenario.carl))
       (Subscriber_save Scenario.carl false false Scenario.w0).2 _ _))));
    reflexivity.
Defined.

(** C3, as stated, fails: a subscriber created with [confirmed=True]
    is inserted and no task is queued. *)
Lemma confirmed_Subscriber_creation_enqueues_nothing :
  ~ (forall self fi fu w r w',
       Subscriber_save self fi fu w = (Ok r, w') ->
       _state_adding self || fi = true ->
       broker w' = broker w ++ [send_confirmation_email_to_subscriber_task (pk self)]).
Proof.
  intros claim.
  specialize (claim Scenario.dora false false Scenario.w0
                (mkInstance (pk Scenario.dora) false (fields Scenario.dora))
                (Subscriber_save Scenario.dora false false Scenario.w0).2
                eq_refl eq_refl).
  by vm_compute in claim.
Qed.





(** C5.  In a consistent store, the confirmation view applied to a
    subscriber that is already confirmed returns that subscriber and
    leaves the whole world as it was: same rows, nothing queued, no
    exception. *)
Theorem ConfirmSubscriptionView_confirmed_idempotent w id s :
  consistent w ->
  subscriber_tbl w !! id = Some s ->
  Subscriber.confirmed s = true ->
  ConfirmSubscriptionView_get_object id w = (Ok (loaded_instance id s), w).
Proof.
  intros Hc Hs Hconf.
  assert (Subscriber.set_confirmed true s = s) as Hset
    by (destruct s; simpl in *; by subst).
  unfold ConfirmSubscriptionView_get_object, bind, get_object. simpl.
  rewrite Hs. simpl. rewrite Hset, Subscriber_save_unfold.
  unfold Model_save, bind, gets, write_row. simpl. rewrite Hs. simpl.
  assert (fk_exists (mailinglist_tbl w) (Subscriber.mailing_list s) = true) as ->.
  { apply fk_exists_true. by apply (subscriber_fk w Hc id s). }
  rewrite (subscriber_unique_together w Hc id s Hs). simpl.
  rewrite insert_id by done. by destruct w.
Qed.

Lemma ConfirmSubscriptionView_confirmed_idempotent_witness :
  ConfirmSubscriptionView_get_object Scenario.ann Scenario.w0 =
    (Ok (loaded_instance Scenario.ann
           (Subscriber.mk "ann@example.org" true Scenario.list_id)),
     Scenario.w0).
Proof.
  apply ConfirmSubscriptionView_confirmed_idempotent.
  - apply (bool_decide_unpack _). vm_compute. exact I.
  - reflexivity.
  - reflexivity.
Defined.

(** ** [unique_together] on subscribers *)

(** While a row holds [(email, mailing_list)], no save can create
    another subscriber with that pair. *)
Lemma Subscriber_save_duplicate w k1 s1 self2 fi2 :
  subscriber_tbl w !! k1 = Some s1 ->
  Subscriber.email (fields self2) = Subscriber.email s1 ->
  Subscriber.mailing_list (fields self2) = Subscriber.mailing_list s1 ->
  _state_adding self2 || fi2 = true ->
  Subscriber_save self2 fi2 false w = (Raise IntegrityError, w).
Proof.
  intros Hk He Hm Hnew2.
  rewrite Subscriber_save_unfold.
  assert (fi2 || (_state_adding self2 && negb false) = true) as Hins2
    by (by destruct fi2, (_state_adding self2)).
  unfold Model_save, sql_insert, write_row.
  rewrite andb_false_r, Hins2. simpl.
  destruct (subscriber_tbl w !! pk self2) eqn:Hk2; [done|].
  assert (email_mailing_list_free (pk self2) (fields self2)
            (subscriber_tbl w) = false) as ->.
  { apply not_true_is_false. rewrite email_mailing_list_free_true.
    intros Hall. rewrite <- (Hall k1 s1) in Hk2 by done. congruence. }
  by rewrite andb_false_r.
Qed.

(** C4.  Once a subscriber has been created, every further attempt to
    create one with the same [(email, mailing_list)], by saving a new
    instance or through [Subscriber.objects.create], raises the
    [IntegrityError] of the violated [unique_together] (the spec's
    [DuplicateSubscription]), writes no row and queues nothing; exactly
    one row holds the pair. *)
Theorem duplicate_Subscriber_creation_rejected
    self1 fi1 fu1 w r1 w1 :
  Subscriber_save self1 fi1 fu1 w = (Ok r1, w1) ->
  fi1 || (_state_adding self1 && negb fu1) = true ->
  let email := Subscriber.email (fields self1) in
  let mailing_list := Subscriber.mailing_list (fields self1) in
  (forall self2 fi2,
     Subscriber.email (fields self2) = email ->
     Subscriber.mailing_list (fields self2) = mailing_list ->
     _state_adding self2 || fi2 = true ->
     Subscriber_save self2 fi2 false w1 = (Raise IntegrityError, w1)) /\
  (forall confirmed,
     let res := Subscriber_objects_create email confirmed mailing_list w1 in
     res.1 = Raise IntegrityError /\
     subscriber_tbl res.2 = subscriber_tbl w1 /\
     broker res.2 = broker w1) /\
  subscribers_of email mailing_list w1 = {[ pk self1 := fields self1 ]}.
Proof.
  intros H1 Hnew1 email mailing_list.
  apply Subscriber_save_Ok in H1 as (_ & Ht & _ & _ & _ & _ & _ & Hc & Hins).
  specialize (Hins Hnew1).
  simpl in Hc. apply andb_true_iff in Hc as [_ Hfree].
  rewrite email_mailing_list_free_true in Hfree.
  assert (subscriber_tbl w1 !! pk self1 = Some (fields self1)) as Hrow
    by (rewrite Ht; apply lookup_insert_eq).
  split_and!.
  - intros self2 fi2 He Hm Hnew2.
    by apply (Subscriber_save_duplicate w1 (pk self1) (fields self1)).
  - intros confirmed. unfold Subscriber_objects_create, bind, uuid4.
    rewrite (Subscriber_save_duplicate _ (pk self1) (fields self1)); done.
  - unfold subscribers_of. rewrite Ht. apply map_eq. intros k.
    destruct (decide (k = pk self1)) as [->|Hne].
    + rewrite lookup_singleton_eq. apply map_lookup_filter_Some.
      by rewrite lookup_insert_eq.
    + rewrite lookup_singleton_ne by done.
      apply map_lookup_filter_None. right. intros r Hr [He' Hm']. simpl in *.
      rewrite lookup_insert_ne in Hr by done.
      rewrite (Hfree k r Hr He' Hm') in Hr. congruence.
Qed.

Lemma duplicate_Subscriber_creation_rejected_witness :
  let w1 := (Subscriber_save Scenario.carl false false Scenario.w0).2 in
  Subscriber_save
    (new_instance 8%N (Subscriber.mk "carl@example.org" true Scenario.list_id))
    true false w1 = (Raise IntegrityError, w1).
Proof.
  refine (proj1
    (duplicate_Subscriber_creation_rejected Scenario.carl false false Scenario.w0
       (mkInstance (pk Scenario.carl) false (fields Scenario.carl))
       (Subscriber_save Scenario.carl false false Scenario.w0).2 _ _)
    (new_instance 8%N (Subscriber.mk "carl@example.org" true Scenario.list_id))
    true _ _ _); reflexivity.
Defined.

(** ** The fan-out build job *)

(** The manager of [Subscriber] has no attribute
    [send_confirmation_email]: the lookup raises before anything is read
    or written. *)
Lemma create_from_message_raises message w :
  create_from_message message w = (Raise AttributeError, w).
Proof. reflexivity. Qed.

Lemma build_subscriber_messages_for_message_raises id w :
  build_subscriber_messages_for_message id w =
    (Raise (match message_tbl w !! id with Some _ => AttributeError | None => DoesNotExist end), w).
Proof.
  unfold build_subscriber_messages_for_message, bind, objects_get. simpl.
  by destruct (message_tbl w !! id).
Qed.

(** The code of [tasks.py] writes no row and queues no task. *)
Lemma run_task_tables t w :
  mailinglist_tbl (run_task t w).2 = mailinglist_tbl w /\
  subscriber_tbl (run_task t w).2 = subscriber_tbl w /\
  message_tbl (run_task t w).2 = message_tbl w /\
  subscribermessage_tbl (run_task t w).2 = subscribermessage_tbl w /\
  broker (run_task t w).2 = broker w.
Proof.
  destruct t as [id|id|id]; simpl.
  - unfold send_confirmation_email_to_subscriber, bind, objects_get. simpl.
    by destruct (subscriber_tbl w !! id).
  - by rewrite build_subscriber_messages_for_message_raises.
  - unfold send_subscriber_message, bind, objects_get. simpl.
    by destruct (subscribermessage_tbl w !! id).
Qed.

(** C1, at an input where the code and the claim part.  The list of the
    scenario has one confirmed subscriber, so one [SubscriberMessage] is
    due; the build job raises [AttributeError] and the table stays
    empty. *)
Theorem build_job_creates_no_SubscriberMessage :
  (confirmed_subscribers_for_mailing_list Scenario.list_id Scenario.w0).1 =
    Ok [loaded_instance Scenario.ann
          (Subscriber.mk "ann@example.org" true Scenario.list_id)] /\
  build_subscriber_messages_for_message Scenario.hello Scenario.w0 =
    (Raise AttributeError, Scenario.w0) /\
  subscribermessage_tbl
    (build_subscriber_messages_for_message Scenario.hello Scenario.w0).2 = ∅.
Proof. by vm_compute. Qed.

(** ** Creating a [SubscriberMessage] *)

(** [SubscriberMessage.objects.create] in a store that holds the message
    and the subscriber, with a [uuid4] draw that is not yet a key. *)
Lemma SubscriberMessage_objects_create_Ok message subscriber w :
  is_Some (message_tbl w !! message) ->
  is_Some (subscriber_tbl w !! subscriber) ->
  subscribermessage_tbl w !! uuid4_source w (uuid4_drawn w) = None ->
  let id := uuid4_source w (uuid4_drawn w) in
  let row := SubscriberMessage.mk message subscriber (now w) None None in
  SubscriberMessage_objects_create message subscriber w =
    (Ok (mkInstance id false row),
     set_broker (broker w ++ [send_confirmation_email_to_subscriber_task id])
       (set_subscribermessage_tbl (<[id := row]> (subscribermessage_tbl w))
          (set_uuid4_drawn (S (uuid4_drawn w)) w))).
Proof.
  intros Hm Hs Hfresh id row. subst id row.
  unfold SubscriberMessage_objects_create, bind, uuid4.
  rewrite SubscriberMessage_save_unfold.
  unfold Model_save, sql_insert, write_row, new_instance. simpl.
  rewrite Hfresh.
  apply fk_exists_true in Hm as ->. apply fk_exists_true in Hs as ->.
  reflexivity.
Qed.

(** C2, as amended.  [SubscriberMessage] rows are unique by [id] and by
    nothing else: whenever the message and the subscriber exist and the
    drawn [id] is new, [SubscriberMessage.objects.create] inserts one more
    row for the pair, whether or not the pair already has rows, and queues
    one task. *)
Theorem SubscriberMessage_create_always_inserts message subscriber w :
  is_Some (message_tbl w !! message) ->
  is_Some (subscriber_tbl w !! subscriber) ->
  subscribermessage_tbl w !! uuid4_source w (uuid4_drawn w) = None ->
  let res := SubscriberMessage_objects_create message subscriber w in
  is_ok res.1 = true /\
  size (subscribermessages_of message subscriber res.2) =
    S (size (subscribermessages_of message subscriber w)) /\
  length (broker res.2) = S (length (broker w)).
Proof.
  intros Hm Hs Hfresh res. subst res.
  rewrite SubscriberMessage_objects_create_Ok by done. simpl.
  split; [done|]. split.
  - unfold subscribermessages_of. simpl.
    rewrite map_filter_insert_True by done.
    apply map_size_insert_None, map_lookup_filter_None. by left.
  - rewrite length_app. simpl. lia.
Qed.

Lemma SubscriberMessage_create_always_inserts_witness :
  let w1 := (SubscriberMessage_objects_create Scenario.hello Scenario.ann Scenario.w0).2 in
  size (subscribermessages_of Scenario.hello Scenario.ann
          (SubscriberMessage_objects_create Scenario.hello Scenario.ann w1).2) =
    S (size (subscribermessages_of Scenario.hello Scenario.ann w1)).
Proof.
  intros w1.
  refine (proj1 (proj2
    (SubscriberMessage_create_always_inserts Scenario.hello Scenario.ann w1 _ _ _)));
    vm_compute; eauto.
Defined.

(** C2, as stated, fails: the second insert for a pair is accepted and
    the pair has two rows. *)
Lemma second_SubscriberMessage_insert_accepted :
  let create := SubscriberMessage_objects_create_op Scenario.hello Scenario.ann in
  let w1 := run_op create Scenario.w0 in
  is_ok (SubscriberMessage_objects_create Scenario.hello Scenario.ann w1).1 = true /\
  size (subscribermessages_of Scenario.hello Scenario.ann
          (run_ops [create; create] Scenario.w0)) = 2 /\
  ~ one_SubscriberMessage_per_pair (run_ops [create; create] Scenario.w0).
Proof.
  repeat split; [by vm_compute..|].
  intros H.
  specialize (H 103%N 104%N
    (SubscriberMessage.mk Scenario.hello Scenario.ann 0 None None)
    (SubscriberMessage.mk Scenario.hello Scenario.ann 0 None None)
    eq_refl eq_refl eq_refl eq_refl).
  discriminate H.
Qed.

(** ** What the comprehension of [create_from_message] does

    The build job never reaches its list comprehension.  Run over the
    subscribers that [confirmed_subscribers_for_mailing_list] returns,
    the comprehension creates one row per subscriber, and once more on
    every rerun. *)

Lemma create_for_each_Ok message subs w :
  is_Some (message_tbl w !! pk message) ->
  Forall (fun s : Instance Subscriber.t => is_Some (subscriber_tbl w !! pk s)) subs ->
  fresh_draws (length subs) w ->
  exists rs w',
    create_for_each message subs w = (Ok rs, w') /\
    (forall i s, subs !! i = Some s ->
       subscribermessage_tbl w' !! uuid4_source w (uuid4_drawn w + i) =
         Some (SubscriberMessage.mk (pk message) (pk s) (now w) None None)) /\
    (forall k, (forall i, i < length subs -> k <> uuid4_source w (uuid4_drawn w + i)) ->
       subscribermessage_tbl w' !! k = subscribermessage_tbl w !! k) /\
    size (subscribermessage_tbl w') = size (subscribermessage_tbl w) + length subs.
Proof.
  unfold create_for_each. revert w.
  induction subs as [|s subs IH]; intros w Hm Hsubs [Hfresh Hdistinct].
  { exists [], w. simpl. by split_and!. }
  apply Forall_cons in Hsubs as [Hs Hsubs].
  simpl. unfold bind at 1.
  rewrite SubscriberMessage_objects_create_Ok; try done;
    [|by rewrite <- (Hfresh 0), Nat.add_0_r by (simpl; lia)].
  set (id0 := uuid4_source w (uuid4_drawn w)).
  set (row0 := SubscriberMessage.mk (pk message) (pk s) (now w) None None).
  set (w1 := set_broker _ _).
  assert (Hid : forall i, uuid4_source w1 (uuid4_drawn w1 + i)
                          = uuid4_source w (uuid4_drawn w + S i)).
  { intros i. subst w1. simpl. f_equal. lia. }
  assert (Hne : forall i, i < length subs ->
                          id0 <> uuid4_source w (uuid4_drawn w + S i)).
  { intros i Hi. subst id0. rewrite <- (Nat.add_0_r (uuid4_drawn w)) at 1.
    apply Hdistinct. simpl. lia. }
  destruct (IH w1) as (rs & w2 & E & Hnew & Hold & Hsize).
  { done. }
  { done. }
  { split.
    - intros i Hi. rewrite Hid. subst w1. simpl.
      rewrite lookup_insert_ne by by apply Hne.
      apply Hfresh. simpl. lia.
    - intros i j Hij. rewrite !Hid. apply Hdistinct. simpl. lia. }
  unfold bind. rewrite E. exists (mkInstance id0 false row0 :: rs), w2.
  split; [done|].
  assert (subscribermessage_tbl w1 = <[id0 := row0]> (subscribermessage_tbl w))
    as Hw1 by done.
  assert (now w1 = now w) as Hnow by done.
  clearbody w1. rewrite Hw1 in *. rewrite Hnow in *.
  split_and!.
  - intros [|i] s' Hi; simpl in Hi.
    + simplify_eq. rewrite Nat.add_0_r. fold id0.
      rewrite Hold; [apply lookup_insert_eq|].
      intros i Hi'. rewrite Hid. by apply Hne.
    + rewrite <- Hid. by apply Hnew.
  - intros k Hk. rewrite Hold.
    + apply lookup_insert_ne. subst id0. intros <-.
      apply (Hk 0); [simpl; lia|]. by rewrite Nat.add_0_r.
    + intros i Hi. rewrite Hid. apply Hk. simpl. lia.
  - rewrite Hsize, map_size_insert_None; [simpl; lia|].
    subst id0. by rewrite <- (Hfresh 0), Nat.add_0_r by (simpl; lia).
Qed.

(** The subscribers the manager returns are the confirmed subscribers of
    the list, each once. *)
Lemma confirmed_subscribers_for_mailing_list_spec mailing_list w :
  exists subs,
    confirmed_subscribers_for_mailing_list mailing_list w = (Ok subs, w) /\
    NoDup (pk <$> subs) /\
    (forall s, s ∈ subs <->
       _state_adding s = false /\
       subscriber_tbl w !! pk s = Some (fields s) /\
       Subscriber.confirmed (fields s) = true /\
       Subscriber.mailing_list (fields s) = mailing_list).
Proof.
  eexists. split; [reflexivity|]. split.
  - rewrite <- list_fmap_compose. apply NoDup_fst_map_to_list.
  - intros [k a x]. rewrite list_elem_of_fmap. split.
    + intros ([k' x'] & [= -> -> ->] & Hin). simpl.
      apply elem_of_map_to_list in Hin.
      apply map_lookup_filter_Some in Hin as [Hin Hml].
      apply map_lookup_filter_Some in Hin as [Hin Hc]. done.
    + simpl. intros (-> & Hk & Hc & Hml). exists (k, x). split; [done|].
      apply elem_of_map_to_list.
      apply map_lookup_filter_Some. split; [|done].
      apply map_lookup_filter_Some. done.
Qed.

(** The comprehension over the confirmed subscribers of the message's
    list: as many new rows as the list has confirmed subscribers, one for
    each, whatever rows the message already has. *)
Lemma create_for_each_confirmed message w subs :
  is_Some (message_tbl w !! pk message) ->
  (confirmed_subscribers_for_mailing_list
     (Message.mailing_list (fields message)) w).1 = Ok subs ->
  fresh_draws (length subs) w ->
  exists rs w',
    create_for_each message subs w = (Ok rs, w') /\
    size (subscribermessage_tbl w') = size (subscribermessage_tbl w) + length subs /\
    NoDup (pk <$> subs) /\
    (forall i s, subs !! i = Some s ->
       Subscriber.confirmed (fields s) = true /\
       Subscriber.mailing_list (fields s) = Message.mailing_list (fields message) /\
       subscribermessage_tbl w' !! uuid4_source w (uuid4_drawn w + i) =
         Some (SubscriberMessage.mk (pk message) (pk s) (now w) None None)).
Proof.
  intros Hm Hsubs Hfresh.
  destruct (confirmed_subscribers_for_mailing_list_spec
              (Message.mailing_list (fields message)) w) as (subs' & E & Hnd & Hin).
  rewrite E in Hsubs. simpl in Hsubs. injection Hsubs as ->.
  destruct (create_for_each_Ok message subs w) as (rs & w' & Hok & Hnew & _ & Hsize);
    [done| |done|].
  { apply Forall_forall. intros s Hs. apply Hin in Hs as (_ & -> & _). eauto. }
  exists rs, w'. split_and!; try done.
  intros i s Hi.
  pose proof (proj1 (Hin s) (list_elem_of_lookup_2 _ _ _ Hi)) as (_ & _ & Hc & Hml).
  split_and!; try done. by apply Hnew.
Qed.

(** A created [SubscriberMessage] queues a task of the confirmation
    type, carrying the id of the new row. *)
Lemma SubscriberMessage_save_new_broker self fi fu w r w' :
  SubscriberMessage_save self fi fu w = (Ok r, w') ->
  _state_adding self || fi = true ->
  broker w' = broker w ++ [send_confirmation_email_to_subscriber_task (pk self)].
Proof.
  rewrite SubscriberMessage_save_unfold. intros H Hnew. rewrite Hnew in H.
  destruct (Model_save _ _ _ _ _) as [[r1|e] w1] eqn:E; [|done].
  apply Model_save_Ok in E as (x & -> & -> & _). by simplify_eq/=.
Qed.

(** C6, at an input where the code and the claim part.  Creating the
    [SubscriberMessage] of the scenario's message for its confirmed
    subscriber queues [send_confirmation_email_to_subscriber] with the id
    of the new row, not [send_subscriber_message]; a worker running that
    task looks the id up among the subscribers, raises [DoesNotExist] and
    never reaches the mail sender. *)
Theorem SubscriberMessage_send_enqueues_confirmation_task :
  let res := SubscriberMessage_objects_create Scenario.hello Scenario.ann Scenario.w0 in
  res.1 = Ok (mkInstance 103%N false
                (SubscriberMessage.mk Scenario.hello Scenario.ann 0 None None)) /\
  broker res.2 =
    broker Scenario.w0 ++ [send_confirmation_email_to_subscriber_task 103%N] /\
  (send_subscriber_message_task 103%N ∉ broker res.2) /\
  run_task (send_confirmation_email_to_subscriber_task 103%N) res.2 =
    (Raise DoesNotExist, res.2) /\
  email_calls res.2 = [].
Proof.
  repeat split; try by vm_compute.
  apply (bool_decide_unpack _). by vm_compute.
Qed.

(** ** The timestamps of a [Message] *)

Lemma SubscriberMessage_objects_create_tables message subscriber w :
  let w' := (SubscriberMessage_objects_create message subscriber w).2 in
  mailinglist_tbl w' = mailinglist_tbl w /\
  subscriber_tbl w' = subscriber_tbl w /\
  message_tbl w' = message_tbl w.
Proof.
  unfold SubscriberMessage_objects_create, bind, uuid4.
  rewrite SubscriberMessage_save_unfold.
  destruct (Model_save _ _ _ _ _) as [[r|e] w1] eqn:E.
  - apply Model_save_Ok in E as (x & -> & -> & _). by simpl.
  - apply Model_save_Raise in E as ->. by simpl.
Qed.

(** The comprehension of [create_from_message] writes no [Message] row. *)
Lemma create_for_each_message_tbl message confirmed_subs w :
  message_tbl (create_for_each message confirmed_subs w).2 = message_tbl w.
Proof.
  unfold create_for_each.
  revert w. induction confirmed_subs as [|s subs IH]; intros w; [done|].
  simpl. unfold bind at 1.
  pose proof (SubscriberMessage_objects_create_tables (pk message) (pk s) w)
    as (_ & _ & Hm).
  destruct (SubscriberMessage_objects_create _ _ _) as [[r|e] w1]; [|done].
  unfold bind. specialize (IH w1).
  destruct (for_each _ _ _) as [[rs|e] w2]; simpl in *; congruence.
Qed.

(** C7, as amended.  [Message.save] stores [started] and [finished] as
    the instance holds them: both are null for a message created with the
    field defaults, as [Message.objects.create] with a list, a subject
    and a body does, and nothing sets them on the way.  The build job
    leaves every message as it is: it sets neither timestamp, whatever
    the number of confirmed subscribers; nor does the comprehension that
    creates the records. *)
Theorem build_job_leaves_Message_timestamps w :
  (forall self fi fu r w',
     Message_save self fi fu w = (Ok r, w') ->
     exists m,
       message_tbl w' !! pk self = Some m /\
       Message.started m = Message.started (fields self) /\
       Message.finished m = Message.finished (fields self)) /\
  (forall mailing_list subject body r w',
     Message_objects_create mailing_list subject body w = (Ok r, w') ->
     message_tbl w' !! pk r = Some (fields r) /\
     Message.started (fields r) = None /\
     Message.finished (fields r) = None) /\
  (forall id,
     message_tbl (build_subscriber_messages_for_message id w).2 = message_tbl w) /\
  (forall message confirmed_subs,
     message_tbl (create_for_each message confirmed_subs w).2 = message_tbl w).
Proof.
  split_and!.
  - intros self fi fu r w'. rewrite Message_save_unfold.
    destruct (Model_save _ _ _ _ _) as [[r1|e] w1] eqn:E; [|done].
    apply Model_save_Ok in E as (x & -> & -> & _ & Hx).
    assert (x = fields self) as ->
      by (destruct Hx as [(_ & -> & _)|(_ & -> & _)]; done).
    intros H. exists (fields self). split; [|done].
    destruct (_ || _); simplify_eq/=; apply lookup_insert_eq.
  - intros mailing_list subject body r w' H.
    unfold Message_objects_create, bind, uuid4 in H.
    rewrite Message_save_unfold in H.
    destruct (Model_save _ _ _ _ _) as [[r1|e] w1] eqn:E; simplify_eq/=.
    apply Model_save_new_Ok in E as (_ & -> & -> & _); [|done].
    simpl. split; [apply lookup_insert_eq|done].
  - intros id. by rewrite build_subscriber_messages_for_message_raises.
  - intros. apply create_for_each_message_tbl.
Qed.

Lemma build_job_leaves_Message_timestamps_witness :
  let self := new_instance 7%N
                (Message.mk Scenario.list_id "again" "second issue" None None) in
  exists m,
    message_tbl (Message_save self false false Scenario.w0).2 !! 7%N = Some m /\
    Message.started m = None /\
    Message.finished m = None.
Proof.
  intros self.
  exact (proj1 (build_job_leaves_Message_timestamps Scenario.w0)
           self false false (mkInstance 7%N false (fields self))
           (Message_save self false false Scenario.w0).2 eq_refl).
Defined.

(** C7, as stated, fails: after the build job has run for the scenario's
    message its [started] is still null; and for a message of a list
    with no confirmed subscriber, [finished] is still null. *)
Lemma build_job_sets_no_timestamp :
  ~ (forall w id m,
       message_tbl w !! id = Some m ->
       exists m', message_tbl (run_task (build_subscriber_messages_for_message_task id) w).2
                    !! id = Some m' /\
                  is_Some (Message.started m')) /\
  (let w := run_ops [Subscriber_delete_op Scenario.ann] Scenario.w0 in
   (confirmed_subscribers_for_mailing_list Scenario.list_id w).1 = Ok [] /\
   Message.finished <$>
     message_tbl (run_task (build_subscriber_messages_for_message_task Scenario.hello) w).2
       !! Scenario.hello = Some None).
Proof.
  split.
  - intros claim.
    destruct (claim Scenario.w0 Scenario.hello
                (Message.mk Scenario.list_id "hello" "first issue" None None) eq_refl)
      as (m' & Hm' & Hs).
    vm_compute in Hm'. injection Hm' as <-. by destruct Hs.
  - by vm_compute.
Qed.

(** ** The delivery task is never queued *)

Lemma Model_save_broker {A} (T : Table A) self fi fu w :
  (forall m w0, broker (set_rows T m w0) = broker w0) ->
  broker (Model_save T self fi fu w).2 = broker w.
Proof.
  intros HT.
  destruct (Model_save T self fi fu w) as [[r|e] w'] eqn:E; simpl.
  - by apply Model_save_Ok in E as (x & _ & -> & _).
  - by apply Model_save_Raise in E as ->.
Qed.

Ltac broker_of_save :=
  match goal with
  | |- context [Model_save ?T ?s ?a ?b ?w0] =>
      let Hb := fresh "Hb" in
      pose proof (Model_save_broker T s a b w0 (fun _ _ => eq_refl)) as Hb;
      destruct (Model_save T s a b w0) as [[?r|?e] ?w1]; simpl in *;
      repeat (match goal with
              | |- context [if ?c then _ else _] => destruct c
              end; simpl);
      rewrite Hb; eexists;
      (split; [first [done | by rewrite app_nil_r]|]); by repeat constructor
  end.

Lemma run_op_broker o w :
  exists l, broker (run_op o w) = broker w ++ l /\
            Forall (fun t => is_delivery_task t = false) l.
Proof.
  destruct o; simpl.
  - broker_of_save.
  - by exists []; rewrite app_nil_r.
  - rewrite Subscriber_save_unfold. broker_of_save.
  - unfold Subscriber_objects_create, bind, uuid4. rewrite Subscriber_save_unfold.
    broker_of_save.
  - unfold ConfirmSubscriptionView_get_object, bind, get_object. simpl.
    destruct (subscriber_tbl w !! id); [|by exists []; rewrite app_nil_r].
    rewrite Subscriber_save_unfold. broker_of_save.
  - by exists []; rewrite app_nil_r.
  - rewrite Message_save_unfold. broker_of_save.
  - unfold Message_objects_create, bind, uuid4. rewrite Message_save_unfold.
    broker_of_save.
  - by exists []; rewrite app_nil_r.
  - rewrite SubscriberMessage_save_unfold. broker_of_save.
  - unfold SubscriberMessage_objects_create, bind, uuid4.
    rewrite SubscriberMessage_save_unfold. broker_of_save.
  - by exists []; rewrite app_nil_r.
  - exists []. rewrite app_nil_r. split; [apply run_task_tables|done].
  - by exists []; rewrite app_nil_r.
Qed.

(** Whatever the clients and workers do, the models and tasks never put
    a [send_subscriber_message] task on the broker: nothing in the
    sources calls its [delay]. *)
Lemma send_subscriber_message_never_queued os w :
  Forall (fun t => is_delivery_task t = false) (broker w) ->
  Forall (fun t => is_delivery_task t = false) (broker (run_ops os w)).
Proof.
  unfold run_ops. revert w. induction os as [|o os IH]; intros w Hw; [done|].
  simpl. apply IH.
  destruct (run_op_broker o w) as (l & -> & Hl). by apply Forall_app.
Qed.

(** ** Integrity is an invariant *)

Lemma consistent_same_tables w w' :
  mailinglist_tbl w' = mailinglist_tbl w ->
  subscriber_tbl w' = subscriber_tbl w ->
  message_tbl w' = message_tbl w ->
  subscribermessage_tbl w' = subscribermessage_tbl w ->
  consistent w -> consistent w'.
Proof. intros H1 H2 H3 H4 []. constructor; by rewrite ?H1, ?H2, ?H3, ?H4. Qed.

Lemma World_empty_consistent t0 source : consistent (World_empty t0 source).
Proof. constructor; simpl; apply map_Forall_empty. Qed.

Lemma is_Some_lookup_insert {A} (m : gmap UUID A) i x j :
  is_Some (m !! j) -> is_Some (<[i := x]> m !! j).
Proof.
  intros H. destruct (decide (i = j)) as [->|?].
  - rewrite lookup_insert_eq. eauto.
  - by rewrite lookup_insert_ne.
Qed.

Lemma consistent_write_MailingList w id x :
  consistent w ->
  consistent (set_mailinglist_tbl (<[id := x]> (mailinglist_tbl w)) w).
Proof.
  intros []. constructor; simpl; try done.
  - intros k s Hk. by apply is_Some_lookup_insert, (subscriber_fk0 k).
  - intros k m Hk. by apply is_Some_lookup_insert, (message_fk0 k).
Qed.

Lemma consistent_write_Subscriber w id x :
  consistent w ->
  constraints Subscriber_table id x w = true ->
  consistent (set_subscriber_tbl (<[id := x]> (subscriber_tbl w)) w).
Proof.
  intros [] Hc. simpl in Hc. apply andb_true_iff in Hc as [Hfk Hfree].
  apply fk_exists_true in Hfk. rewrite email_mailing_list_free_true in Hfree.
  constructor; simpl; try done.
  - intros k s [[-> ->]|[_ Hk]]%lookup_insert_Some; [done|].
    by apply (subscriber_fk0 k).
  - intros k sm Hk. by apply is_Some_lookup_insert, (subscribermessage_subscriber_fk0 k).
  - intros k s Hk. apply email_mailing_list_free_true. intros k' r Hk' He Hm.
    apply lookup_insert_Some in Hk as [[-> ->]|[Hne Hk]];
      apply lookup_insert_Some in Hk' as [[-> ->]|[Hne' Hk']]; try done.
    + by apply (Hfree k' r).
    + symmetry. by apply (Hfree k s).
    + pose proof (subscriber_unique_together0 k s Hk) as Hu.
      rewrite email_mailing_list_free_true in Hu. by apply (Hu k' r).
Qed.

Lemma consistent_write_Message w id x :
  consistent w ->
  constraints Message_table id x w = true ->
  consistent (set_message_tbl (<[id := x]> (message_tbl w)) w).
Proof.
  intros [] Hc. simpl in Hc. apply fk_exists_true in Hc.
  constructor; simpl; try done.
  - intros k s [[-> ->]|[_ Hk]]%lookup_insert_Some; [done|].
    by apply (message_fk0 k).
  - intros k sm Hk. by apply is_Some_lookup_insert, (subscribermessage_message_fk0 k).
Qed.

Lemma consistent_write_SubscriberMessage w id x :
  consistent w ->
  constraints SubscriberMessage_table id x w = true ->
  consistent (set_subscribermessage_tbl (<[id := x]> (subscribermessage_tbl w)) w).
Proof.
  intros [] Hc. simpl in Hc. apply andb_true_iff in Hc as [Hm Hs].
  apply fk_exists_true in Hm, Hs.
  constructor; simpl; try done.
  - intros k s [[-> ->]|[_ Hk]]%lookup_insert_Some; [done|].
    by apply (subscribermessage_message_fk0 k).
  - intros k s [[-> ->]|[_ Hk]]%lookup_insert_Some; [done|].
    by apply (subscribermessage_subscriber_fk0 k).
Qed.

Lemma Model_save_consistent {A} (T : Table A) self fi fu w :
  sound_table T -> consistent w -> consistent (Model_save T self fi fu w).2.
Proof.
  intros HT Hw.
  destruct (Model_save T self fi fu w) as [[r|e] w'] eqn:E; simpl.
  - apply Model_save_Ok in E as (x & _ & -> & Hc & _). by apply HT.
  - by apply Model_save_Raise in E as ->.
Qed.

Lemma consistent_set_broker q w : consistent w -> consistent (set_broker q w).
Proof. by apply consistent_same_tables. Qed.

Lemma consistent_set_uuid4_drawn n w : consistent w -> consistent (set_uuid4_drawn n w).
Proof. by apply consistent_same_tables. Qed.

Lemma Subscriber_save_consistent self fi fu w :
  consistent w -> consistent (Subscriber_save self fi fu w).2.
Proof.
  intros Hw. rewrite Subscriber_save_unfold.
  pose proof (Model_save_consistent Subscriber_table self fi fu w
                consistent_write_Subscriber Hw) as H.
  destruct (Model_save _ _ _ _ _) as [[r|e] w1]; [|done].
  destruct (_ && _); [|done]. by apply consistent_set_broker.
Qed.

Lemma Message_save_consistent self fi fu w :
  consistent w -> consistent (Message_save self fi fu w).2.
Proof.
  intros Hw. rewrite Message_save_unfold.
  pose proof (Model_save_consistent Message_table self fi fu w
                consistent_write_Message Hw) as H.
  destruct (Model_save _ _ _ _ _) as [[r|e] w1]; [|done].
  destruct (_ || _); [|done]. by apply consistent_set_broker.
Qed.

Lemma SubscriberMessage_save_consistent self fi fu w :
  consistent w -> consistent (SubscriberMessage_save self fi fu w).2.
Proof.
  intros Hw. rewrite SubscriberMessage_save_unfold.
  pose proof (Model_save_consistent SubscriberMessage_table self fi fu w
                consistent_write_SubscriberMessage Hw) as H.
  destruct (Model_save _ _ _ _ _) as [[r|e] w1]; [|done].
  destruct (_ || _); [|done]. by apply consistent_set_broker.
Qed.

Lemma ConfirmSubscriptionView_consistent id w :
  consistent w -> consistent (ConfirmSubscriptionView_get_object id w).2.
Proof.
  intros Hw. unfold ConfirmSubscriptionView_get_object, bind, get_object. simpl.
  destruct (subscriber_tbl w !! id); [|done].
  by apply Subscriber_save_consistent.
Qed.

Lemma run_task_consistent t w : consistent w -> consistent (run_task t w).2.
Proof.
  destruct (run_task_tables t w) as (? & ? & ? & ? & _).
  by apply consistent_same_tables.
Qed.

Lemma email_mailing_list_free_subseteq id s (t1 t2 : gmap UUID Subscriber.t) :
  t1 ⊆ t2 ->
  email_mailing_list_free id s t2 = true -> email_mailing_list_free id s t1 = true.
Proof.
  rewrite !email_mailing_list_free_true. intros Hsub H k r Hk.
  apply (H k r). by eapply lookup_weaken.
Qed.

Lemma SubscriberMessage_delete_consistent id w :
  consistent w -> consistent (SubscriberMessage_delete id w).2.
Proof.
  intros []. constructor; simpl; try done.
  - intros k sm [_ Hk]%lookup_delete_Some. by apply (subscribermessage_message_fk0 k).
  - intros k sm [_ Hk]%lookup_delete_Some. by apply (subscribermessage_subscriber_fk0 k).
Qed.

Lemma Subscriber_delete_consistent id w :
  consistent w -> consistent (Subscriber_delete id w).2.
Proof.
  intros []. constructor; simpl; try done.
  - intros k s [_ Hk]%lookup_delete_Some. by apply (subscriber_fk0 k).
  - intros k sm [Hk _]%map_lookup_filter_Some.
    by apply (subscribermessage_message_fk0 k).
  - intros k sm [Hk Hne]%map_lookup_filter_Some. simpl in Hne.
    rewrite lookup_delete_ne by done.
    by apply (subscribermessage_subscriber_fk0 k).
  - intros k s [_ Hk]%lookup_delete_Some.
    eapply email_mailing_list_free_subseteq; [apply delete_subseteq|].
    by apply (subscriber_unique_together0 k).
Qed.

Lemma Message_delete_consistent id w :
  consistent w -> consistent (Message_delete id w).2.
Proof.
  intros []. constructor; simpl; try done.
  - intros k s [_ Hk]%lookup_delete_Some. by apply (message_fk0 k).
  - intros k sm [Hk Hne]%map_lookup_filter_Some. simpl in Hne.
    rewrite lookup_delete_ne by done.
    by apply (subscribermessage_message_fk0 k).
  - intros k sm [Hk _]%map_lookup_filter_Some.
    by apply (subscribermessage_subscriber_fk0 k).
Qed.

Lemma MailingList_delete_consistent id w :
  consistent w -> consistent (MailingList_delete id w).2.
Proof.
  intros []. constructor; simpl.
  - intros k s [Hk Hne]%map_lookup_filter_Some. simpl in Hne.
    rewrite lookup_delete_ne by done. by apply (subscriber_fk0 k).
  - intros k m [Hk Hne]%map_lookup_filter_Some. simpl in Hne.
    rewrite lookup_delete_ne by done. by apply (message_fk0 k).
  - intros k sm [Hk [_ Hm]]%map_lookup_filter_Some. simpl in Hm.
    destruct (subscribermessage_message_fk0 k sm Hk) as [m Hsome].
    exists m. apply map_lookup_filter_Some. split; [done|]. simpl.
    intros Heq. apply map_lookup_filter_None in Hm as [Hm|Hm]; [congruence|].
    by apply (Hm m).
  - intros k sm [Hk [Hs _]]%map_lookup_filter_Some. simpl in Hs.
    destruct (subscribermessage_subscriber_fk0 k sm Hk) as [s Hsome].
    exists s. apply map_lookup_filter_Some. split; [done|]. simpl.
    intros Heq. apply map_lookup_filter_None in Hs as [Hs|Hs]; [congruence|].
    by apply (Hs s).
  - intros k s [Hk _]%map_lookup_filter_Some.
    eapply email_mailing_list_free_subseteq; [apply map_filter_subseteq|].
    by apply (subscriber_unique_together0 k).
Qed.

Lemma run_op_consistent o w : consistent w -> consistent (run_op o w).
Proof.
  intros Hw. destruct o; simpl.
  - apply Model_save_consistent; [|done].
    intros w0 i x Hc _. by apply (consistent_write_MailingList w0 i x).
  - by apply MailingList_delete_consistent.
  - by apply Subscriber_save_consistent.
  - by apply Subscriber_save_consistent, consistent_set_uuid4_drawn.
  - by apply ConfirmSubscriptionView_consistent.
  - by apply Subscriber_delete_consistent.
  - by apply Message_save_consistent.
  - by apply Message_save_consistent, consistent_set_uuid4_drawn.
  - by apply Message_delete_consistent.
  - by apply SubscriberMessage_save_consistent.
  - by apply SubscriberMessage_save_consistent, consistent_set_uuid4_drawn.
  - by apply SubscriberMessage_delete_consistent.
  - by apply run_task_consistent.
  - by apply (consistent_same_tables w).
Qed.

Lemma run_ops_consistent os w : consistent w -> consistent (run_ops os w).
Proof.
  unfold run_ops. revert w. induction os as [|o os IH]; intros w Hw; [done|].
  simpl. by apply IH, run_op_consistent.
Qed.

(** C9.  In any world the operations can reach, deleting a mailing list
    removes the list, every subscriber and message of the list, and every
    [SubscriberMessage] of such a subscriber or message; and both before
    and after, every [SubscriberMessage] refers to a subscriber and a
    message that are stored, themselves on a stored list. *)
Theorem MailingList_delete_cascades t0 source (os : list Op) (id : UUID) :
  let w := run_ops os (World_empty t0 source) in
  let w' := (MailingList_delete id w).2 in
  mailinglist_tbl w' !! id = None /\
  (forall k s, subscriber_tbl w' !! k = Some s -> Subscriber.mailing_list s <> id) /\
  (forall k m, message_tbl w' !! k = Some m -> Message.mailing_list m <> id) /\
  (forall k sm s,
     subscribermessage_tbl w !! k = Some sm ->
     subscriber_tbl w !! SubscriberMessage.subscriber sm = Some s ->
     Subscriber.mailing_list s = id ->
     subscribermessage_tbl w' !! k = None) /\
  (forall k sm m,
     subscribermessage_tbl w !! k = Some sm ->
     message_tbl w !! SubscriberMessage.message sm = Some m ->
     Message.mailing_list m = id ->
     subscribermessage_tbl w' !! k = None) /\
  (forall k sm,
     subscribermessage_tbl w' !! k = Some sm ->
     is_Some (subscriber_tbl w' !! SubscriberMessage.subscriber sm) /\
     is_Some (message_tbl w' !! SubscriberMessage.message sm)) /\
  consistent w /\ consistent w'.
Proof.
  intros w w'.
  assert (consistent w) as Hw by apply run_ops_consistent, World_empty_consistent.
  assert (consistent w') as Hw' by by apply MailingList_delete_consistent.
  split_and!; try done.
  - apply lookup_delete_eq.
  - by intros k s [_ Hne]%map_lookup_filter_Some.
  - by intros k m [_ Hne]%map_lookup_filter_Some.
  - intros k sm s Hk Hs Hml. simpl.
    apply map_lookup_filter_None. right. intros sm' Hk' [Hnone _]. simpl in *.
    simplify_eq. apply map_lookup_filter_None in Hnone as [Hnone|Hnone];
      [congruence|]. by apply (Hnone s).
  - intros k sm m Hk Hm Hml. simpl.
    apply map_lookup_filter_None. right. intros sm' Hk' [_ Hnone]. simpl in *.
    simplify_eq. apply map_lookup_filter_None in Hnone as [Hnone|Hnone];
      [congruence|]. by apply (Hnone m).
  - intros k sm Hk. split.
    + by apply (subscribermessage_subscriber_fk w' Hw' k sm).
    + by apply (subscribermessage_message_fk w' Hw' k sm).
Qed.

Lemma MailingList_delete_cascades_witness :
  let w := run_ops (Scenario.setup ++
                    [SubscriberMessage_objects_create_op Scenario.hello Scenario.ann])
                   (World_empty 0 Scenario.source) in
  subscribermessage_tbl w !! 103%N =
    Some (SubscriberMessage.mk Scenario.hello Scenario.ann 0 None None) /\
  subscribermessage_tbl (MailingList_delete Scenario.list_id w).2 !! 103%N = None.
Proof.
  intros w. split; [reflexivity|].
  refine (proj1 (proj2 (proj2 (proj2
    (MailingList_delete_cascades 0 Scenario.source
       (Scenario.setup ++
        [SubscriberMessage_objects_create_op Scenario.hello Scenario.ann])
       Scenario.list_id)))) 103%N
    (SubscriberMessage.mk Scenario.hello Scenario.ann 0 None None)
    (Subscriber.mk "ann@example.org" true Scenario.list_id) _ _ _); reflexivity.
Defined.

(** * Further properties of the models, tasks and views *)

(** ** Saving *)

(** X1.  An exception of the inherited [save] passes through the
    overridden one before the task is queued: when [Model.save] refuses a
    [Subscriber], a [Message] or a [SubscriberMessage] (a violated
    constraint, an insert of a stored key, a forced update of a missing
    row, both forced at once), the overridden [save] raises the same
    exception, no row has been written and no task has been queued. *)
Theorem refused_save_queues_nothing w e :
  (forall self fi fu w',
     Model_save Subscriber_table self fi fu w = (Raise e, w') ->
     Subscriber_save self fi fu w = (Raise e, w)) /\
  (forall self fi fu w',
     Model_save Message_table self fi fu w = (Raise e, w') ->
     Message_save self fi fu w = (Raise e, w)) /\
  (forall self fi fu w',
     Model_save SubscriberMessage_table self fi fu w = (Raise e, w') ->
     SubscriberMessage_save self fi fu w = (Raise e, w)).
Proof.
  split_and!; intros self fi fu w' E;
    pose proof (Model_save_Raise _ _ _ _ _ _ _ E) as ->.
  - by rewrite Subscriber_save_unfold, E.
  - by rewrite Message_save_unfold, E.
  - by rewrite SubscriberMessage_save_unfold, E.
Qed.

Lemma refused_save_queues_nothing_witness :
  Subscriber_save
    (new_instance 9%N (Subscriber.mk "eve@example.org" false 77%N))
    false false Scenario.w0 = (Raise IntegrityError, Scenario.w0).
Proof.
  refine (proj1 (refused_save_queues_nothing Scenario.w0 IntegrityError)
            (new_instance 9%N (Subscriber.mk "eve@example.org" false 77%N))
            false false Scenario.w0 _).
  reflexivity.
Defined.



(** ** Creating and updating a [SubscriberMessage] *)



(** X4.  Saving a [SubscriberMessage] that is already stored (an instance
    loaded from its row, saved without forcing an insert) queues nothing,
    whether or not the save succeeds; when it succeeds the row holds
    exactly what the instance held, [created] included, and no other row
    has changed. *)
Theorem SubscriberMessage_update_enqueues_nothing w id old x fu :
  subscribermessage_tbl w !! id = Some old ->
  let res := SubscriberMessage_save (loaded_instance id x) false fu w in
  broker res.2 = broker w /\
  (is_ok res.1 = true ->
   subscribermessage_tbl res.2 = <[id := x]> (subscribermessage_tbl w)) /\
  (is_ok res.1 = false -> res.2 = w).
Proof.
  intros Hold res. subst res.
  rewrite SubscriberMessage_save_unfold.
  unfold Model_save, bind, gets, write_row, loaded_instance. simpl.
  rewrite Hold. simpl.
  destruct (_ && _); simpl; by split_and!.
Qed.

Lemma SubscriberMessage_update_enqueues_nothing_witness :
  let w1 := (SubscriberMessage_objects_create Scenario.hello Scenario.ann Scenario.w0).2 in
  let x := SubscriberMessage.mk Scenario.hello Scenario.ann 0 (Some 5%Z) (Some 5%Z) in
  broker (SubscriberMessage_save (loaded_instance 103%N x) false false w1).2 = broker w1.
Proof.
  intros w1 x.
  refine (proj1 (SubscriberMessage_update_enqueues_nothing w1 103%N
    (SubscriberMessage.mk Scenario.hello Scenario.ann 0 None None) x false _)).
  reflexivity.
Defined.

(** ** Confirmed subscribers and the confirmation view *)

(** X5.  [confirmed_subscribers_for_mailing_list] only reads: it returns,
    each once, the stored subscribers of the given list whose [confirmed]
    is true, and no one else; their number is the number of such rows. *)
Theorem confirmed_subscribers_for_mailing_list_exact mailing_list w :
  exists subs,
    confirmed_subscribers_for_mailing_list mailing_list w = (Ok subs, w) /\
    NoDup (pk <$> subs) /\
    length subs =
      size (filter (fun kr => Subscriber.confirmed kr.2 = true /\
                              Subscriber.mailing_list kr.2 = mailing_list)
                   (subscriber_tbl w)) /\
    (forall id s,
       loaded_instance id s ∈ subs <->
       subscriber_tbl w !! id = Some s /\
       Subscriber.confirmed s = true /\
       Subscriber.mailing_list s = mailing_list) /\
    (forall i, i ∈ subs -> _state_adding i = false).
Proof.
  destruct (confirmed_subscribers_for_mailing_list_spec mailing_list w)
    as (subs & E & Hnd & Hin).
  exists subs. split_and!; try done.
  - injection E as <-. rewrite length_fmap, length_map_to_list.
    f_equal. apply map_eq. intros k. apply option_eq. intros s.
    rewrite !map_lookup_filter_Some. simpl. tauto.
  - intros id s. rewrite Hin. simpl. tauto.
  - intros i Hi. by apply Hin in Hi as (? & _).
Qed.

(** X6.  In a consistent store, [ConfirmSubscriptionView.get_object]
    raises [Http404] for an unknown id and changes nothing; for a stored
    subscriber, pending or not, it returns the subscriber with [confirmed]
    set, rewrites that one row keeping [email] and [mailing_list], and
    queues no task.  The subscriber is from then on among the confirmed
    subscribers of its list. *)
Theorem ConfirmSubscriptionView_confirms w id :
  consistent w ->
  match subscriber_tbl w !! id with
  | None => ConfirmSubscriptionView_get_object id w = (Raise Http404, w)
  | Some s =>
      let s' := Subscriber.mk (Subscriber.email s) true (Subscriber.mailing_list s) in
      let w' := set_subscriber_tbl (<[id := s']> (subscriber_tbl w)) w in
      ConfirmSubscriptionView_get_object id w = (Ok (loaded_instance id s'), w') /\
      broker w' = broker w /\
      exists subs,
        (confirmed_subscribers_for_mailing_list (Subscriber.mailing_list s) w').1
          = Ok subs /\
        loaded_instance id s' ∈ subs
  end.
Proof.
  intros Hc. destruct (subscriber_tbl w !! id) as [s|] eqn:Hs.
  - intros s' w'. split_and!; [|done|].
    + unfold ConfirmSubscriptionView_get_object, bind, get_object. simpl.
      rewrite Hs. simpl. rewrite Subscriber_save_unfold.
      unfold Model_save, bind, gets, write_row. simpl. rewrite Hs. simpl.
      assert (fk_exists (mailinglist_tbl w) (Subscriber.mailing_list s) = true) as ->.
      { apply fk_exists_true. by apply (subscriber_fk w Hc id s). }
      assert (email_mailing_list_free id (Subscriber.set_confirmed true s)
                (subscriber_tbl w) = true) as ->.
      { pose proof (subscriber_unique_together w Hc id s Hs) as Hu.
        rewrite email_mailing_list_free_true in Hu |- *. done. }
      done.
    + destruct (confirmed_subscribers_for_mailing_list_spec
                  (Subscriber.mailing_list s) w') as (subs & E & _ & Hin).
      exists subs. rewrite E. split; [done|].
      apply Hin. subst w'. simpl. by rewrite lookup_insert_eq.
  - unfold ConfirmSubscriptionView_get_object, bind, get_object. simpl.
    by rewrite Hs.
Qed.

Lemma ConfirmSubscriptionView_confirms_witness :
  (ConfirmSubscriptionView_get_object Scenario.bob Scenario.w0).1 =
    Ok (loaded_instance Scenario.bob
          (Subscriber.mk "bob@example.org" true Scenario.list_id)).
Proof.
  assert (Hc : consistent Scenario.w0)
    by (apply (bool_decide_unpack _); vm_compute; exact I).
  exact (f_equal fst (proj1 (ConfirmSubscriptionView_confirms Scenario.w0 Scenario.bob Hc))).
Defined.

(** ** Unsubscribing and deleting a list *)

(** X7.  [UnsubscribeView] raises [Http404] for an unknown id and changes
    nothing.  For a stored subscriber it removes that subscriber and
    exactly the [SubscriberMessage] rows that point at it: every other
    subscriber and every other [SubscriberMessage] stays, lists, messages
    and the queue are untouched, and a consistent store stays
    consistent. *)
Theorem UnsubscribeView_deletes_subscriber_and_its_records w id :
  match subscriber_tbl w !! id with
  | None => UnsubscribeView_delete id w = (Raise Http404, w)
  | Some _ =>
      let res := UnsubscribeView_delete id w in
      res.1 = Ok tt /\
      subscriber_tbl res.2 = delete id (subscriber_tbl w) /\
      (forall k sm,
         subscribermessage_tbl res.2 !! k = Some sm <->
         subscribermessage_tbl w !! k = Some sm /\
         SubscriberMessage.subscriber sm <> id) /\
      mailinglist_tbl res.2 = mailinglist_tbl w /\
      message_tbl res.2 = message_tbl w /\
      broker res.2 = broker w /\
      (consistent w -> consistent res.2)
  end.
Proof.
  unfold UnsubscribeView_delete, bind, get_object. simpl.
  destruct (subscriber_tbl w !! id) as [s|] eqn:Hs; [|done].
  simpl. split_and!; try done.
  - intros k sm. by rewrite map_lookup_filter_Some.
  - apply (Subscriber_delete_consistent id w).
Qed.

(** X8.  Unsubscribing frees the address: in a consistent store, once
    [UnsubscribeView] has deleted a subscriber, a new subscriber with the
    same [(email, mailing_list)] and an unused id is accepted, and, being
    unconfirmed, is sent a confirmation task. *)
Theorem resubscribe_after_unsubscribe w id s id' :
  consistent w ->
  subscriber_tbl w !! id = Some s ->
  subscriber_tbl w !! id' = None ->
  let w1 := (UnsubscribeView_delete id w).2 in
  let self := new_instance id'
                (Subscriber.mk (Subscriber.email s) false (Subscriber.mailing_list s)) in
  let res := Subscriber_save self false false w1 in
  res.1 = Ok (mkInstance id' false (fields self)) /\
  subscriber_tbl res.2 !! id' = Some (fields self) /\
  subscribers_of (Subscriber.email s) (Subscriber.mailing_list s) res.2 =
    {[ id' := fields self ]} /\
  broker res.2 = broker w ++ [send_confirmation_email_to_subscriber_task id'].
Proof.
  intros Hc Hs Hfresh w1 self res.
  assert (Hw1 : w1 = (Subscriber_delete id w).2).
  { subst w1. unfold UnsubscribeView_delete, bind, get_object. simpl.
    by rewrite Hs. }
  assert (Hfree : forall k r, subscriber_tbl w1 !! k = Some r ->
                    Subscriber.email r = Subscriber.email s ->
                    Subscriber.mailing_list r = Subscriber.mailing_list s -> False).
  { intros k r Hk He Hm. rewrite Hw1 in Hk. simpl in Hk.
    apply lookup_delete_Some in Hk as [Hne Hk].
    pose proof (subscriber_unique_together w Hc id s Hs) as Hu.
    rewrite email_mailing_list_free_true in Hu. apply Hne. symmetry. by apply (Hu k r). }
  assert (Hnone : subscriber_tbl w1 !! id' = None).
  { rewrite Hw1. simpl. apply lookup_delete_None. by right. }
  assert (Hfk : fk_exists (mailinglist_tbl w1) (Subscriber.mailing_list s) = true).
  { apply fk_exists_true. rewrite Hw1. simpl. by apply (subscriber_fk w Hc id s). }
  assert (Hok : email_mailing_list_free id' (fields self) (subscriber_tbl w1) = true).
  { apply email_mailing_list_free_true. intros k r Hk He Hm.
    by destruct (Hfree k r Hk He Hm). }
  assert (Hb : broker w1 = broker w) by by rewrite Hw1.
  clearbody w1.
  assert (E : res = (Ok (mkInstance id' false (fields self)),
                     set_broker (broker w1 ++ [send_confirmation_email_to_subscriber_task id'])
                       (set_subscriber_tbl (<[id' := fields self]> (subscriber_tbl w1)) w1))).
  { subst res. rewrite Subscriber_save_unfold.
    unfold Model_save, sql_insert, write_row. simpl in *.
    by rewrite Hnone, Hfk, Hok. }
  rewrite E. simpl. split_and!; try done.
  - apply lookup_insert_eq.
  - unfold subscribers_of. simpl. apply map_eq. intros k.
    destruct (decide (k = id')) as [->|Hne].
    + rewrite lookup_singleton_eq. apply map_lookup_filter_Some.
      by rewrite lookup_insert_eq.
    + rewrite lookup_singleton_ne by done.
      apply map_lookup_filter_None. right. intros r Hr [He Hm]. simpl in *.
      rewrite lookup_insert_ne in Hr by done. by apply (Hfree k r).
  - by rewrite Hb.
Qed.

Lemma resubscribe_after_unsubscribe_witness :
  let w1 := (UnsubscribeView_delete Scenario.ann Scenario.w0).2 in
  let self := new_instance 8%N
                (Subscriber.mk "ann@example.org" false Scenario.list_id) in
  (Subscriber_save self false false w1).1 = Ok (mkInstance 8%N false (fields self)).
Proof.
  intros w1 self.
  refine (proj1 (resubscribe_after_unsubscribe Scenario.w0 Scenario.ann
    (Subscriber.mk "ann@example.org" true Scenario.list_id) 8%N _ _ _)).
  - apply (bool_decide_unpack _). vm_compute. exact I.
  - reflexivity.
  - reflexivity.
Defined.

(** X9.  [MailingList.delete], with the cascade of the four foreign
    keys, removes nothing that belongs to another list: every other list,
    every subscriber and message of another list, and every
    [SubscriberMessage] whose subscriber and message are both on other
    lists, are kept as they were; the queue is untouched. *)
Theorem MailingList_delete_keeps_other_lists w id :
  let w' := (MailingList_delete id w).2 in
  (forall k, k <> id -> mailinglist_tbl w' !! k = mailinglist_tbl w !! k) /\
  (forall k s, subscriber_tbl w !! k = Some s ->
     Subscriber.mailing_list s <> id -> subscriber_tbl w' !! k = Some s) /\
  (forall k m, message_tbl w !! k = Some m ->
     Message.mailing_list m <> id -> message_tbl w' !! k = Some m) /\
  (forall k sm s m,
     subscribermessage_tbl w !! k = Some sm ->
     subscriber_tbl w !! SubscriberMessage.subscriber sm = Some s ->
     message_tbl w !! SubscriberMessage.message sm = Some m ->
     Subscriber.mailing_list s <> id ->
     Message.mailing_list m <> id ->
     subscribermessage_tbl w' !! k = Some sm) /\
  broker w' = broker w /\
  email_calls w' = email_calls w.
Proof.
  intros w'. subst w'. simpl. split_and!.
  - intros k Hne. by apply lookup_delete_ne.
  - intros k s Hk Hne. by apply map_lookup_filter_Some.
  - intros k m Hk Hne. by apply map_lookup_filter_Some.
  - intros k sm s m Hk Hs Hm Hns Hnm.
    apply map_lookup_filter_Some. split; [done|]. simpl. split.
    + apply map_lookup_filter_None. right. intros s' Hs' Heq. simpl in *.
      congruence.
    + apply map_lookup_filter_None. right. intros m' Hm' Heq. simpl in *.
      congruence.
  - done.
  - done.
Qed.

Lemma MailingList_delete_keeps_other_lists_witness :
  subscriber_tbl (MailingList_delete 2%N Scenario.w0).2 !! Scenario.ann =
    Some (Subscriber.mk "ann@example.org" true Scenario.list_id).
Proof.
  refine (proj1 (proj2 (MailingList_delete_keeps_other_lists Scenario.w0 2%N))
            Scenario.ann _ _ _).
  - reflexivity.
  - compute. discriminate.
Defined.

(** ** The workers *)

(** X10.  A subscriber created unconfirmed is followed up by its own
    task: the save leaves [send_confirmation_email_to_subscriber] with the
    subscriber's id last in the queue, and a worker running that task
    loads the row just written and hands it to
    [emails.send_confirmation_email], once, writing nothing.  Should the
    subscriber have been deleted before the worker runs, the task raises
    [DoesNotExist] and calls nothing. *)
Theorem confirmation_task_reloads_the_subscriber self fi fu w r w' :
  Subscriber_save self fi fu w = (Ok r, w') ->
  _state_adding self || fi = true ->
  Subscriber.confirmed (fields self) = false ->
  let task := send_confirmation_email_to_subscriber_task (pk self) in
  last (broker w') = Some task /\
  run_task task w' =
    (Ok tt,
     set_email_calls
       (email_calls w' ++
        [emails_send_confirmation_email (loaded_instance (pk self) (fields self))])
       w') /\
  run_task task (Subscriber_delete (pk self) w').2 =
    (Raise DoesNotExist, (Subscriber_delete (pk self) w').2).
Proof.
  intros H Hnew Hconf task.
  apply Subscriber_save_Ok in H as (_ & Ht & _ & _ & _ & _ & Hb & _).
  rewrite Hnew, Hconf in Hb. simpl in Hb. split_and!.
  - rewrite Hb. apply last_snoc.
  - simpl. unfold send_confirmation_email_to_subscriber, bind, objects_get. simpl.
    by rewrite Ht, lookup_insert_eq.
  - simpl. unfold send_confirmation_email_to_subscriber, bind, objects_get. simpl.
    by rewrite lookup_delete_eq.
Qed.

Lemma confirmation_task_reloads_the_subscriber_witness :
  let w' := (Subscriber_save Scenario.carl false false Scenario.w0).2 in
  last (broker w') = Some (send_confirmation_email_to_subscriber_task (pk Scenario.carl)).
Proof.
  refine (proj1 (confirmation_task_reloads_the_subscriber Scenario.carl false false
    Scenario.w0 (mkInstance (pk Scenario.carl) false (fields Scenario.carl))
    (Subscriber_save Scenario.carl false false Scenario.w0).2 _ _ _)); reflexivity.
Defined.

(** X11.  [send_subscriber_message] hands the record it loads to
    [emails.send_subscriber_message], once, and writes nothing itself;
    for an id that is not stored it raises [DoesNotExist] and calls
    nothing.  That is what happens to the record of a subscriber who has
    unsubscribed, or of a message that has been deleted, before the worker
    runs: the cascade has removed the record. *)
Theorem send_subscriber_message_after_cascade w k sm :
  subscribermessage_tbl w !! k = Some sm ->
  let task := send_subscriber_message_task k in
  run_task task w =
    (Ok tt,
     set_email_calls
       (email_calls w ++ [emails_send_subscriber_message (loaded_instance k sm)]) w) /\
  (let w1 := (UnsubscribeView_delete (SubscriberMessage.subscriber sm) w).2 in
   is_Some (subscriber_tbl w !! SubscriberMessage.subscriber sm) ->
   run_task task w1 = (Raise DoesNotExist, w1)) /\
  (let w1 := (Message_delete (SubscriberMessage.message sm) w).2 in
   run_task task w1 = (Raise DoesNotExist, w1)).
Proof.
  intros Hk task. split_and!.
  - simpl. unfold send_subscriber_message, bind, objects_get. simpl. by rewrite Hk.
  - intros w1 [s Hs]. subst w1.
    unfold UnsubscribeView_delete, bind, get_object. simpl. rewrite Hs. simpl.
    unfold send_subscriber_message, bind, objects_get. simpl.
    assert (filter (fun kr : N * SubscriberMessage.t =>
                      SubscriberMessage.subscriber kr.2 <> SubscriberMessage.subscriber sm)
              (subscribermessage_tbl w) !! k = None) as ->; [|done].
    apply map_lookup_filter_None. right. intros sm' Hk' Hne. simpl in *.
    by simplify_eq.
  - intros w1. subst w1. simpl.
    unfold send_subscriber_message, bind, objects_get. simpl.
    assert (filter (fun kr : N * SubscriberMessage.t =>
                      SubscriberMessage.message kr.2 <> SubscriberMessage.message sm)
              (subscribermessage_tbl w) !! k = None) as ->; [|done].
    apply map_lookup_filter_None. right. intros sm' Hk' Hne. simpl in *.
    by simplify_eq.
Qed.

Lemma send_subscriber_message_after_cascade_witness :
  let w := (SubscriberMessage_objects_create Scenario.hello Scenario.ann Scenario.w0).2 in
  let w1 := (Message_delete Scenario.hello w).2 in
  run_task (send_subscriber_message_task 103%N) w1 = (Raise DoesNotExist, w1).
Proof.
  intros w.
  refine (proj2 (proj2 (send_subscriber_message_after_cascade w 103%N
    (SubscriberMessage.mk Scenario.hello Scenario.ann 0 None None) _))).
  reflexivity.
Defined.

(** X12.  From the empty world on, whatever the clients and workers do,
    no [send_subscriber_message] task is ever on the queue: nothing in the
    models, tasks and views calls its [delay]. *)
Theorem no_send_subscriber_message_task_is_queued t0 source os :
  Forall (fun t => is_delivery_task t = false)
         (broker (run_ops os (World_empty t0 source))).
Proof.
  apply send_subscriber_message_never_queued. constructor.
Qed.

(** ** Ownership *)

Lemma user_can_use_mailing_list_true l user :
  user_can_use_mailing_list l user = true <-> user = MailingList.owner (fields l).
Proof. unfold user_can_use_mailing_list. by rewrite bool_decide_eq_true. Qed.

Lemma elem_of_evaluate {A} (qs : gmap UUID A) (i : Instance A) :
  i ∈ evaluate qs <-> _state_adding i = false /\ qs !! pk i = Some (fields i).
Proof.
  unfold evaluate. rewrite list_elem_of_fmap. destruct i as [k a x]. simpl. split.
  - intros ([k' x'] & [= -> -> ->] & Hin). by apply elem_of_map_to_list in Hin.
  - intros [-> Hk]. exists (k, x). split; [done|]. by apply elem_of_map_to_list.
Qed.

Lemma NoDup_pk_evaluate {A} (qs : gmap UUID A) : NoDup (pk <$> evaluate qs).
Proof.
  unfold evaluate. rewrite <- list_fmap_compose. apply NoDup_fst_map_to_list.
Qed.

(** X13.  [CanUseMailingList.has_object_permission] never writes.  For a
    list it grants access to the list's owner and to nobody else; for a
    subscriber stored in a consistent world it never raises and gives the
    answer it gives for the subscriber's list; for anything else it
    refuses.  When the subscriber's list is not stored, loading it raises
    [DoesNotExist]. *)
Theorem has_object_permission_is_list_ownership user w :
  (forall l,
     has_object_permission user (MailingList_obj l) w =
       (Ok (bool_decide (user = MailingList.owner (fields l))), w)) /\
  has_object_permission user other_obj w = (Ok false, w) /\
  (forall s,
     mailinglist_tbl w !! Subscriber.mailing_list (fields s) = None ->
     has_object_permission user (Subscriber_obj s) w = (Raise DoesNotExist, w)) /\
  (consistent w ->
   forall id s,
     subscriber_tbl w !! id = Some s ->
     exists l,
       mailinglist_tbl w !! Subscriber.mailing_list s = Some l /\
       has_object_permission user (Subscriber_obj (loaded_instance id s)) w =
         has_object_permission user
           (MailingList_obj (loaded_instance (Subscriber.mailing_list s) l)) w /\
       (has_object_permission user (Subscriber_obj (loaded_instance id s)) w
          = (Ok true, w) <-> user = MailingList.owner l)).
Proof.
  split_and!.
  - done.
  - done.
  - intros s Hnone. unfold has_object_permission, bind, objects_get. simpl.
    by rewrite Hnone.
  - intros Hc id s Hs.
    destruct (subscriber_fk w Hc id s Hs) as [l Hl]. exists l.
    unfold has_object_permission, bind, objects_get. simpl. rewrite Hl. simpl.
    split_and!; try done. unfold ret, user_can_use_mailing_list. simpl. split.
    + intros [= H]. by apply bool_decide_eq_true in H.
    + intros ->. by rewrite bool_decide_eq_true_2.
Qed.

(** X14.  The list view shows a user exactly the lists that user may
    use: [MailingListListView.get_queryset] only reads and returns, each
    once, the stored lists for which [user_can_use_mailing_list] holds;
    the API view [MailingListCreateListView.get_queryset] returns the
    same lists. *)
Theorem list_views_show_exactly_the_usable_lists user w :
  exists ls,
    MailingListListView_get_queryset user w = (Ok ls, w) /\
    MailingListCreateListView_get_queryset user w = (Ok ls, w) /\
    NoDup (pk <$> ls) /\
    (forall id l,
       loaded_instance id l ∈ ls <->
       mailinglist_tbl w !! id = Some l /\
       user_can_use_mailing_list (loaded_instance id l) user = true).
Proof.
  eexists. split_and!; try reflexivity.
  - apply NoDup_pk_evaluate.
  - intros id l. rewrite elem_of_evaluate, map_lookup_filter_Some,
      user_can_use_mailing_list_true. simpl. split.
    + by intros (_ & Hl & <-).
    + by intros (Hl & ->).
Qed.

(** X15.  [CreateMessageView.get_mailing_list] only reads.  It raises
    [Http404] exactly when no list has the id, raises [PermissionDenied]
    exactly when the list is stored and the user is not its owner, and
    otherwise returns the stored list: it never returns a list to a user
    who does not own it. *)
Theorem get_mailing_list_checks_owner user id w :
  (CreateMessageView_get_mailing_list user id w).2 = w /\
  match mailinglist_tbl w !! id with
  | None => (CreateMessageView_get_mailing_list user id w).1 = Raised Http404
  | Some l =>
      if decide (user = MailingList.owner l)
      then (CreateMessageView_get_mailing_list user id w).1 =
             Returned (loaded_instance id l)
      else (CreateMessageView_get_mailing_list user id w).1 = PermissionDenied
  end /\
  (forall r,
     (CreateMessageView_get_mailing_list user id w).1 = Returned r ->
     pk r = id /\ mailinglist_tbl w !! id = Some (fields r) /\
     MailingList.owner (fields r) = user).
Proof.
  unfold CreateMessageView_get_mailing_list, vbind, lift, get_object_or_404,
    user_can_use_mailing_list. simpl.
  destruct (mailinglist_tbl w !! id) as [l|] eqn:Hl; simpl; [|done].
  destruct (decide (user = MailingList.owner l)) as [->|Hne].
  - rewrite bool_decide_eq_true_2 by done. simpl. split_and!; try done.
    by intros r [= <-].
  - rewrite bool_decide_eq_false_2 by done. by simpl.
Qed.

Lemma get_mailing_list_independent user id w :
  (CreateMessageView_get_mailing_list user id w).2 = w.
Proof.
  unfold CreateMessageView_get_mailing_list, vbind, lift, get_object_or_404.
  simpl. destruct (mailinglist_tbl w !! id); [|done].
  by destruct (negb _).
Qed.

Lemma Message_save_Ok_fields self fi fu w r w' :
  Message_save self fi fu w = (Ok r, w') -> r = mkInstance (pk self) false (fields self).
Proof.
  rewrite Message_save_unfold.
  destruct (Model_save _ _ _ _ _) as [[r1|e'] w1] eqn:E; [|done].
  apply Model_save_Ok in E as (x & -> & -> & Hc & Hx).
  assert (x = fields self) as -> by (destruct Hx as [(_ & -> & _)|(_ & -> & _)]; done).
  by destruct (_ || _); intros [= <- _].
Qed.

(** ** Composing a message *)

(** X16.  [CreateMessageView.form_valid] writes and queues only when the
    posted action is ['save'].  A preview changes nothing and renders the
    form's message with the list of the URL, after the owner check of
    [get_mailing_list]; any other action, or none, changes nothing and
    returns [None].  A save is the plain [save()] of the form's message,
    whoever the user and whatever the list of the URL: when it returns,
    the view redirects to the page of the message's own list; when it
    raises, so does the view. *)
Theorem form_valid_saves_only_on_save user id action message w :
  let res := CreateMessageView_form_valid user id action message w in
  (action <> Some SAVE_ACTION -> res.2 = w) /\
  (action = Some PREVIEW_ACTION ->
   match (CreateMessageView_get_mailing_list user id w).1 with
   | Returned l =>
       res.1 = Returned (Some (render_to_response
                                 (mkContext message l SAVE_ACTION PREVIEW_ACTION)))
   | Raised e => res.1 = Raised e
   | PermissionDenied => res.1 = PermissionDenied
   end) /\
  (action <> Some PREVIEW_ACTION -> action <> Some SAVE_ACTION ->
   res.1 = Returned None) /\
  (action = Some SAVE_ACTION ->
   res.2 = (Message_save message false false w).2 /\
   match (Message_save message false false w).1 with
   | Ok object =>
       res.1 = Returned (Some (HttpResponseRedirect
                 (reverse "mailinglist:manage_mailinglist"
                          (Message.mailing_list (fields message)))))
   | Raise e => res.1 = Raised e
   end).
Proof.
  intros res. subst res. unfold CreateMessageView_form_valid.
  pose proof (get_mailing_list_independent user id w) as Hg.
  split_and!.
  - intros Hns. destruct (decide (action = Some PREVIEW_ACTION)) as [_|_].
    + unfold vbind, CreateMessageView_get_context_data, vbind.
      destruct (CreateMessageView_get_mailing_list user id w) as [[l|e|] w1];
        simpl in *; by subst.
    + by rewrite decide_False.
  - intros ->. rewrite decide_True by done.
    unfold vbind, CreateMessageView_get_context_data, vbind.
    by destruct (CreateMessageView_get_mailing_list user id w) as [[l|e|] w1].
  - intros Hnp Hns. by rewrite !decide_False.
  - intros ->. rewrite decide_False by done. rewrite decide_True by done.
    unfold vbind, lift, CreateMessageView_get_success_url.
    destruct (Message_save message false false w) as [[r|e] w1] eqn:E; [|done].
    simpl. split; [done|].
    apply Message_save_Ok_fields in E as ->. done.
Qed.

(** ** The API views *)

Lemma Data_update_spec key v data :
  match data with
  | dict d =>
      exists d', Data_update key v data = Ok (dict d') /\
                 d' !! key = Some v /\
                 (forall k, k <> key -> d' !! k = d !! k) /\
                 Data_update key v (dict d') = Ok (dict d')
  | QueryDict true d =>
      exists d', Data_update key v data = Ok (QueryDict true d') /\
                 Data_get key (QueryDict true d') = Some v /\
                 (forall k, k <> key -> d' !! k = d !! k)
  | QueryDict false _ | other _ => Data_update key v data = Raise AttributeError
  end.
Proof.
  destruct data as [d|[|] d|b]; simpl; try done.
  - eexists. split; [reflexivity|]. split_and!.
    + apply lookup_insert_eq.
    + intros k Hk. by apply lookup_insert_ne.
    + by rewrite insert_insert_eq.
  - eexists. split; [reflexivity|]. split.
    + simpl. rewrite lookup_insert_eq. simpl. apply last_snoc.
    + intros k Hk. by apply lookup_insert_ne.
Qed.

(** X17.  [MailingListCreateListView.get_serializer] hands an absent or
    falsy body on untouched, with no owner.  Of a non-empty JSON object
    it sets ["owner"] to the logged-in user's id, replacing an owner the
    client sent and keeping every other key, and doing it twice is doing
    it once; to a non-empty mutable [QueryDict] it appends the user's id,
    which is then the value a field reads.  For a non-empty immutable
    [QueryDict], and for any other truthy body, it raises
    [AttributeError].  So a truthy body is never handed on with an owner
    other than the user.  [SubscriberListCreateView.get_serializer] does
    the same with ["mailing_list"] and the URL of the list named in the
    path. *)
Theorem get_serializer_overrides_what_the_client_sent user mailing_list_pk data :
  let link := url (reverse "mailinglist:api-mailing-list-detail" mailing_list_pk) in
  (truthy data = false ->
   MailingListCreateListView_get_serializer user data = Ok data /\
   SubscriberListCreateView_get_serializer mailing_list_pk data = Ok data) /\
  (truthy data = true ->
   match data with
   | Some (dict d) =>
       exists d1 d2,
         MailingListCreateListView_get_serializer user data = Ok (Some (dict d1)) /\
         d1 !! "owner" = Some (int user) /\
         (forall k, k <> "owner" -> d1 !! k = d !! k) /\
         MailingListCreateListView_get_serializer user (Some (dict d1))
           = Ok (Some (dict d1)) /\
         SubscriberListCreateView_get_serializer mailing_list_pk data
           = Ok (Some (dict d2)) /\
         d2 !! "mailing_list" = Some link /\
         (forall k, k <> "mailing_list" -> d2 !! k = d !! k) /\
         SubscriberListCreateView_get_serializer mailing_list_pk (Some (dict d2))
           = Ok (Some (dict d2))
   | Some (QueryDict true d) =>
       exists d1 d2,
         MailingListCreateListView_get_serializer user data
           = Ok (Some (QueryDict true d1)) /\
         Data_get "owner" (QueryDict true d1) = Some (int user) /\
         (forall k, k <> "owner" -> d1 !! k = d !! k) /\
         SubscriberListCreateView_get_serializer mailing_list_pk data
           = Ok (Some (QueryDict true d2)) /\
         Data_get "mailing_list" (QueryDict true d2) = Some link /\
         (forall k, k <> "mailing_list" -> d2 !! k = d !! k)
   | _ =>
       MailingListCreateListView_get_serializer user data = Raise AttributeError /\
       SubscriberListCreateView_get_serializer mailing_list_pk data
         = Raise AttributeError
   end) /\
  (forall data',
     truthy data = true ->
     MailingListCreateListView_get_serializer user data = Ok (Some data') ->
     Data_get "owner" data' = Some (int user)) /\
  (forall data',
     truthy data = true ->
     SubscriberListCreateView_get_serializer mailing_list_pk data = Ok (Some data') ->
     Data_get "mailing_list" data' = Some link).
Proof.
  intros link.
  unfold MailingListCreateListView_get_serializer,
    SubscriberListCreateView_get_serializer.
  split_and!.
  - by intros ->.
  - intros Ht. rewrite Ht. destruct data as [data|]; [|done].
    pose proof (Data_update_spec "owner" (int user) data) as H1.
    pose proof (Data_update_spec "mailing_list" link data) as H2.
    destruct data as [d|[|] d|b].
    + destruct H1 as (d1 & E1 & Ho & Hk & Hi), H2 as (d2 & E2 & Ho2 & Hk2 & Hi2).
      exists d1, d2. fold link. rewrite E1, E2.
      assert (truthy (Some (dict d1)) = true) as ->.
      { simpl. rewrite bool_decide_eq_false_2; [done|].
        intros ->. by rewrite lookup_empty in Ho. }
      assert (truthy (Some (dict d2)) = true) as ->.
      { simpl. rewrite bool_decide_eq_false_2; [done|].
        intros ->. by rewrite lookup_empty in Ho2. }
      rewrite Hi, Hi2. by split_and!.
    + destruct H1 as (d1 & E1 & Ho & Hk), H2 as (d2 & E2 & Ho2 & Hk2).
      exists d1, d2. fold link. rewrite E1, E2. by split_and!.
    + fold link. by rewrite H1, H2.
    + fold link. by rewrite H1, H2.
  - intros data' Ht. rewrite Ht. destruct data as [data|]; [|done].
    pose proof (Data_update_spec "owner" (int user) data) as H1.
    destruct data as [d|[|] d|b].
    + destruct H1 as (d1 & -> & Ho & _). by intros [= <-].
    + destruct H1 as (d1 & -> & Ho & _). by intros [= <-].
    + by rewrite H1.
    + by rewrite H1.
  - intros data' Ht. rewrite Ht. destruct data as [data|]; [|done].
    pose proof (Data_update_spec "mailing_list" link data) as H2.
    fold link.
    destruct data as [d|[|] d|b].
    + destruct H2 as (d2 & -> & Ho & _). by intros [= <-].
    + destruct H2 as (d2 & -> & Ho & _). by intros [= <-].
    + by rewrite H2.
    + by rewrite H2.
Qed.

(** X18.  [SubscriberListCreateView.get_queryset] only reads.  It raises
    [Http404] when no list has the id; otherwise it returns, each once,
    the stored subscribers of that list, confirmed or not, and no
    subscriber of another list.  Every subscriber that
    [confirmed_subscribers_for_mailing_list] returns for the list is among
    them. *)
Theorem SubscriberListCreateView_lists_the_subscribers id w :
  match mailinglist_tbl w !! id with
  | None => SubscriberListCreateView_get_queryset id w = (Raise Http404, w)
  | Some _ =>
      exists subs,
        SubscriberListCreateView_get_queryset id w = (Ok subs, w) /\
        NoDup (pk <$> subs) /\
        (forall k s,
           loaded_instance k s ∈ subs <->
           subscriber_tbl w !! k = Some s /\ Subscriber.mailing_list s = id) /\
        (forall confirmed_subs,
           (confirmed_subscribers_for_mailing_list id w).1 = Ok confirmed_subs ->
           confirmed_subs ⊆ subs)
  end.
Proof.
  destruct (mailinglist_tbl w !! id) as [l|] eqn:Hl.
  - exists (evaluate (filter (fun kr : N * Subscriber.t =>
                                Subscriber.mailing_list kr.2 = id) (subscriber_tbl w))).
    split_and!.
    + unfold SubscriberListCreateView_get_queryset, bind, get_object_or_404. simpl.
      by rewrite Hl.
    + apply NoDup_pk_evaluate.
    + intros k s. rewrite elem_of_evaluate, map_lookup_filter_Some. simpl.
      split; [by intros (_ & ? & ?)|by intros (? & ?)].
    + intros cs Hcs i Hi.
      destruct (confirmed_subscribers_for_mailing_list_spec id w)
        as (cs' & E & _ & Hin).
      rewrite E in Hcs. injection Hcs as ->.
      apply Hin in Hi as (Ha & Hk & _ & Hml).
      apply elem_of_evaluate. split; [done|]. by apply map_lookup_filter_Some.
  - unfold SubscriberListCreateView_get_queryset, bind, get_object_or_404. simpl.
    by rewrite Hl.
Qed.

(** ** [unique_together] on update *)

(** X19.  The pair [(email, mailing_list)] is also protected on update:
    in a consistent store, saving a stored subscriber with the email and
    list of another stored subscriber raises [IntegrityError] and changes
    nothing, while saving it with its own pair (only [confirmed] changed,
    say) is accepted. *)
Theorem Subscriber_update_cannot_take_a_used_pair w id old k r x fu :
  consistent w ->
  subscriber_tbl w !! id = Some old ->
  subscriber_tbl w !! k = Some r ->
  k <> id ->
  Subscriber.email x = Subscriber.email r ->
  Subscriber.mailing_list x = Subscriber.mailing_list r ->
  Subscriber_save (loaded_instance id x) false fu w = (Raise IntegrityError, w) /\
  forall c,
    is_ok (Subscriber_save
             (loaded_instance id
                (Subscriber.mk (Subscriber.email old) c (Subscriber.mailing_list old)))
             false fu w).1 = true.
Proof.
  intros Hc Hid Hk Hne He Hm. split.
  - rewrite Subscriber_save_unfold.
    unfold Model_save, bind, gets, write_row, loaded_instance. simpl.
    rewrite Hid. simpl.
    assert (email_mailing_list_free id x (subscriber_tbl w) = false) as ->.
    { apply not_true_is_false. rewrite email_mailing_list_free_true.
      intros Hall. apply Hne. by apply (Hall k r). }
    by rewrite andb_false_r.
  - intros c. rewrite Subscriber_save_unfold.
    unfold Model_save, bind, gets, write_row, loaded_instance. simpl.
    rewrite Hid. simpl.
    assert (fk_exists (mailinglist_tbl w) (Subscriber.mailing_list old) = true) as ->.
    { apply fk_exists_true. by apply (subscriber_fk w Hc id old). }
    assert (email_mailing_list_free id
              (Subscriber.mk (Subscriber.email old) c (Subscriber.mailing_list old))
              (subscriber_tbl w) = true) as ->.
    { pose proof (subscriber_unique_together w Hc id old Hid) as Hu.
      rewrite email_mailing_list_free_true in Hu |- *. done. }
    done.
Qed.

Lemma Subscriber_update_cannot_take_a_used_pair_witness :
  Subscriber_save
    (loaded_instance Scenario.bob
       (Subscriber.mk "ann@example.org" false Scenario.list_id))
    false false Scenario.w0 = (Raise IntegrityError, Scenario.w0).
Proof.
  refine (proj1 (Subscriber_update_cannot_take_a_used_pair Scenario.w0
    Scenario.bob (Subscriber.mk "bob@example.org" false Scenario.list_id)
    Scenario.ann (Subscriber.mk "ann@example.org" true Scenario.list_id)
    (Subscriber.mk "ann@example.org" false Scenario.list_id) false _ _ _ _ _ _)).
  - apply (bool_decide_unpack _). vm_compute. exact I.
  - reflexivity.
  - reflexivity.
  - compute. discriminate.
  - reflexivity.
  - reflexivity.
Defined.

(** ** The comprehension of [create_from_message], and creation *)

Lemma SubscriberMessage_objects_create_result message subscriber w r w1 :
  SubscriberMessage_objects_create message subscriber w = (Ok r, w1) ->
  SubscriberMessage.message (fields r) = message /\
  SubscriberMessage.subscriber (fields r) = subscriber /\
  subscribermessage_tbl w1 !! pk r = Some (fields r) /\
  broker w1 = broker w ++ [send_confirmation_email_to_subscriber_task (pk r)].
Proof.
  unfold SubscriberMessage_objects_create, bind, uuid4.
  rewrite SubscriberMessage_save_unfold.
  destruct (Model_save _ _ _ _ _) as [[r1|e] w2] eqn:E; [|done].
  apply Model_save_new_Ok in E as (_ & -> & -> & _); [|done].
  simpl. intros [= <- <-]. simpl. split_and!; try done. apply lookup_insert_eq.
Qed.

Lemma create_for_each_result message subs w rs w' :
  create_for_each message subs w = (Ok rs, w') ->
  Forall2 (fun (s : Instance Subscriber.t) (r : Instance SubscriberMessage.t) =>
             SubscriberMessage.message (fields r) = pk message /\
             SubscriberMessage.subscriber (fields r) = pk s) subs rs /\
  broker w' =
    broker w ++ ((fun r => send_confirmation_email_to_subscriber_task (pk r)) <$> rs).
Proof.
  unfold create_for_each. revert w rs.
  induction subs as [|s subs IH]; intros w rs; simpl.
  { intros [= <- <-]. split; [constructor|by rewrite app_nil_r]. }
  unfold bind at 1.
  destruct (SubscriberMessage_objects_create _ _ _) as [[r|e] w1] eqn:E1; [|done].
  unfold bind.
  destruct (for_each _ subs w1) as [[rs1|e] w2] eqn:E2; [|done].
  intros [= <- <-].
  apply SubscriberMessage_objects_create_result in E1 as (Hm & Hs & _ & Hb).
  destruct (IH w1 rs1 E2) as (HF & Hb').
  split; [by constructor|].
  rewrite Hb', Hb, <- app_assoc. done.
Qed.

(** X20.  The list comprehension of [create_from_message], given a stored
    message, subscribers that are all stored and unused [uuid4] draws,
    creates one [SubscriberMessage] per listed subscriber, in order: as
    many new rows as subscribers, the i-th under the i-th draw and holding
    the message, the i-th subscriber and the clock; rows that existed
    stay, also rows of the same pairs; one task per new row is queued,
    of the confirmation type, and no [Message] row changes.  For no
    subscriber it does nothing. *)
Theorem create_for_each_creates_one_row_each message subs w :
  is_Some (message_tbl w !! pk message) ->
  Forall (fun s : Instance Subscriber.t => is_Some (subscriber_tbl w !! pk s)) subs ->
  fresh_draws (length subs) w ->
  create_for_each message [] w = (Ok [], w) /\
  exists rs w',
    create_for_each message subs w = (Ok rs, w') /\
    length rs = length subs /\
    size (subscribermessage_tbl w') = size (subscribermessage_tbl w) + length subs /\
    (forall i s, subs !! i = Some s ->
       subscribermessage_tbl w' !! uuid4_source w (uuid4_drawn w + i) =
         Some (SubscriberMessage.mk (pk message) (pk s) (now w) None None)) /\
    subscribermessage_tbl w ⊆ subscribermessage_tbl w' /\
    broker w' =
      broker w ++ ((fun r => send_confirmation_email_to_subscriber_task (pk r)) <$> rs) /\
    message_tbl w' = message_tbl w.
Proof.
  intros Hm Hsubs Hfresh. split; [done|].
  destruct (create_for_each_Ok message subs w Hm Hsubs Hfresh)
    as (rs & w' & E & Hnew & Hold & Hsize).
  destruct (create_for_each_result message subs w rs w' E) as (HF & Hb).
  exists rs, w'. split_and!; try done.
  - symmetry. by eapply Forall2_length.
  - apply map_subseteq_spec. intros k sm Hk. rewrite Hold; [done|].
    intros i Hi ->. destruct Hfresh as [Hf _]. rewrite (Hf i Hi) in Hk. done.
  - pose proof (create_for_each_message_tbl message subs w) as Hmt.
    by rewrite E in Hmt.
Qed.

Lemma create_for_each_creates_one_row_each_witness :
  let message := loaded_instance Scenario.hello
                   (Message.mk Scenario.list_id "hello" "first issue" None None) in
  let ann := loaded_instance Scenario.ann
               (Subscriber.mk "ann@example.org" true Scenario.list_id) in
  exists rs w',
    create_for_each message [ann] Scenario.w0 = (Ok rs, w') /\
    size (subscribermessage_tbl w') = 1.
Proof.
  intros message ann.
  destruct (create_for_each_creates_one_row_each message [ann] Scenario.w0)
    as (_ & rs & w' & E & _ & Hsize & _).
  - vm_compute. eauto.
  - repeat constructor. vm_compute. eauto.
  - split.
    + intros i Hi. destruct i; [reflexivity|simpl in Hi; lia].
    + intros i j Hij. simpl in Hij. lia.
  - exists rs, w'. split; [exact E|exact Hsize].
Defined.


